(** * DirCat helper scripts: build-test.py and release.py

    A shallow embedding of the two automation scripts of the repository:

    - [build-test.py]: [get_executable_paths] (candidate locations of a
      built binary) and [run_cmake_build_and_execute] (configure, build,
      locate, execute);
    - [release.py]: [create_tag], [delete_tag] and [main] (git tag
      management).

    Python [str] values are modelled by [string]: sequences of the code
    points below 256, on which [str.lower] moves the capital letters (A-Z
    and the accented capitals of Latin-1) 32 places up.
    [os.path.join] is modelled for both kinds of host: [posixpath.join],
    and [ntpath.join] as CPython 3.11 has it.
    Ordered Python dictionaries are association lists in insertion order.
    Calls to the operating system (subprocesses, file system) go through an
    explicit interface and a monad that threads the state of the world, the
    record of the subprocesses that were started, and Python exceptions,
    among them the failure to decode captured output. *)

From Stdlib Require Import List String Ascii Bool Arith ZArith Lia FinFun.
Import ListNotations.
Local Open Scope string_scope.
Local Open Scope list_scope.

Set Implicit Arguments.

(** ** Python strings *)

Module PyStr.

(** [s.startswith(pre)] *)
Definition startswith (s pre : string) : bool := String.prefix pre s.

(** [s.endswith(suf)]: some tail of [s] is [suf]. *)
Fixpoint endswith (s suf : string) : bool :=
  (s =? suf) ||
  match s with
  | EmptyString => false
  | String _ s' => endswith s' suf
  end.

(** The code points below 256 that [str.lower] changes: A-Z, and the
    accented capitals 192-214 and 216-222. *)
Definition is_upper (c : ascii) : bool :=
  let n := nat_of_ascii c in
  ((65 <=? n) && (n <=? 90) || (192 <=? n) && (n <=? 214)
   || (216 <=? n) && (n <=? 222))%nat.

Definition lower_char (c : ascii) : ascii :=
  if is_upper c then ascii_of_nat (nat_of_ascii c + 32) else c.

(** [s.lower()] *)
Fixpoint lower (s : string) : string :=
  match s with
  | EmptyString => EmptyString
  | String c s' => String (lower_char c) (lower s')
  end.

(** Truth value of a string: [not s] holds of the empty string only. *)
Definition truthy (s : string) : bool := negb (s =? "").

(** The code points below 256 whose capital is 32 places down: a-z and
    the accented small letters 224-246 and 248-254. *)
Definition is_lower (c : ascii) : bool :=
  let n := nat_of_ascii c in
  ((97 <=? n) && (n <=? 122) || (224 <=? n) && (n <=? 246)
   || (248 <=? n) && (n <=? 254))%nat.

Definition upper_char (c : ascii) : ascii :=
  if is_lower c then ascii_of_nat (nat_of_ascii c - 32) else c.

(** [s.upper()].  The three code points below 256 whose capital is not
    below 256 (181, 223, 255) are left as they are; the one use of
    [upper], in [ntpath.splitdrive], compares the result with a string of
    ASCII characters, which no capital of these three can be part of. *)
Fixpoint upper (s : string) : string :=
  match s with
  | EmptyString => EmptyString
  | String c s' => String (upper_char c) (upper s')
  end.

(** [s[:n]] *)
Fixpoint take (n : nat) (s : string) : string :=
  match n, s with
  | S n', String c s' => String c (take n' s')
  | _, _ => EmptyString
  end.

(** [s[n:]] *)
Fixpoint drop (n : nat) (s : string) : string :=
  match n, s with
  | S n', String _ s' => drop n' s'
  | _, _ => s
  end.

(** [s[0]], when there is one *)
Definition first_char (s : string) : option ascii :=
  match s with
  | EmptyString => None
  | String c _ => Some c
  end.

(** [s[-1]], when there is one *)
Fixpoint last_char (s : string) : option ascii :=
  match s with
  | EmptyString => None
  | String c EmptyString => Some c
  | String _ s' => last_char s'
  end.

(** [s.find(c, start)] for a one-character [c]: the least index from
    [start] on at which [c] stands. *)
Fixpoint find_char (c : ascii) (start : nat) (s : string) : option nat :=
  match s with
  | EmptyString => None
  | String x s' =>
      match start with
      | O => if (x =? c)%char then Some O
             else option_map S (find_char c O s')
      | S start' => option_map S (find_char c start' s')
      end
  end.

(** [s.replace(a, b)] for one-character [a] and [b] *)
Fixpoint replace_char (a b : ascii) (s : string) : string :=
  match s with
  | EmptyString => EmptyString
  | String x s' => String (if (x =? a)%char then b else x) (replace_char a b s')
  end.

End PyStr.

(** ** [os.path.join] on a POSIX host ([posixpath.join])

    The library function folds over the components: a component that starts
    with the separator replaces what was accumulated, otherwise it is
    appended, with a separator unless the accumulated path is empty or ends
    with one. *)

Module PosixPath.

Definition sep : string := "/".

Definition join_step (path b : string) : string :=
  if PyStr.startswith b sep then b
  else if negb (PyStr.truthy path) || PyStr.endswith path sep then path ++ b
  else path ++ sep ++ b.

Definition join (a : string) (p : list string) : string :=
  fold_left join_step p a.

End PosixPath.

(** ** [os.path.join] on Windows ([ntpath.join], CPython 3.11) *)

Module NtPath.

Definition bs : ascii := ascii_of_nat 92.

Definition sep : string := String bs EmptyString.
Definition colon : string := ":".

(** The prefix of an extended UNC path: two separators, a question mark, a
    separator, "UNC", a separator. *)
Definition unc_prefix : string :=
  String bs (String bs (String "?" (String bs
    (String "U" (String "N" (String "C" (String bs EmptyString))))))).

(** [c in seps] *)
Definition in_seps (c : ascii) : bool := (c =? bs)%char || (c =? "/")%char.

(** [s and s[0] in seps] *)
Definition starts_with_sep (s : string) : bool :=
  match PyStr.first_char s with
  | Some c => in_seps c
  | None => false
  end.

(** [s and s[-1] not in seps] *)
Definition ends_without_sep (s : string) : bool :=
  match PyStr.last_char s with
  | Some c => negb (in_seps c)
  | None => false
  end.

(** [ntpath.splitdrive] *)
Definition splitdrive (p : string) : string * string :=
  if (2 <=? String.length p)%nat then
    let normp := PyStr.replace_char "/" bs p in
    if (PyStr.take 2 normp =? sep ++ sep)%string then
      let start :=
        if (PyStr.upper (PyStr.take 8 normp) =? unc_prefix)%string
        then 8%nat else 2%nat in
      match PyStr.find_char bs start normp with
      | None => (p, EmptyString)
      | Some index =>
          match PyStr.find_char bs (index + 1) normp with
          | None => (p, EmptyString)
          | Some index2 => (PyStr.take index2 p, PyStr.drop index2 p)
          end
      end
    else if (String.substring 1 1 normp =? colon)%string
    then (PyStr.take 2 p, PyStr.drop 2 p)
    else (EmptyString, p)
  else (EmptyString, p).

(** Lines 137 to 140 of [ntpath.py]: the component is relative to what
    was accumulated. *)
Definition append_relative (result_path p_path : string) : string :=
  (if ends_without_sep result_path then result_path ++ sep else result_path)
  ++ p_path.

(** One turn of the loop of [ntpath.join], on the pair of the drive and
    the path accumulated. *)
Definition join_step (acc : string * string) (p : string) : string * string :=
  let '(result_drive, result_path) := acc in
  let '(p_drive, p_path) := splitdrive p in
  if starts_with_sep p_path then
    ((if PyStr.truthy p_drive || negb (PyStr.truthy result_drive)
      then p_drive else result_drive),
     p_path)
  else if PyStr.truthy p_drive && negb (p_drive =? result_drive)%string then
    if negb (PyStr.lower p_drive =? PyStr.lower result_drive)%string
    then (p_drive, p_path)
    else (p_drive, append_relative result_path p_path)
  else (result_drive, append_relative result_path p_path).

(** [ntpath.join] *)
Definition join (path : string) (paths : list string) : string :=
  let '(result_drive, result_path) :=
    fold_left join_step paths (splitdrive path) in
  if PyStr.truthy result_path && negb (starts_with_sep result_path)
     && PyStr.truthy result_drive
     && negb (PyStr.drop (String.length result_drive - 1) result_drive =? colon)%string
  then result_drive ++ sep ++ result_path
  else result_drive ++ result_path.

(** The name holds a separator of Windows. *)
Fixpoint has_sep (s : string) : bool :=
  match s with
  | EmptyString => false
  | String c r => in_seps c || has_sep r
  end.

(** The name starts with a drive: its second character is a colon. *)
Definition has_drive (s : string) : bool :=
  (String.substring 1 1 s =? colon)%string.

End NtPath.

(** ** The host platform: [sys.platform] and the [os.path] module in use *)

Record Platform : Type := {
  sys_platform : string;
  os_path_join : string -> list string -> string
}.

(** A host where [os.path] is [posixpath] (every value of [sys.platform]
    other than ["win32"] is such a host). *)
Definition posix_host (name : string) : Platform :=
  {| sys_platform := name; os_path_join := PosixPath.join |}.

Definition linux : Platform := posix_host "linux".

(** Windows: [os.path] is [ntpath]. *)
Definition win32_host : Platform :=
  {| sys_platform := "win32"; os_path_join := NtPath.join |}.

(** ** Ordered dictionaries

    A Python [dict] keeps its keys in insertion order; assigning to a key
    that is present replaces the value and leaves the position alone. *)

Module Dict.

Section WithValue.
Variable V : Type.

Definition t : Type := list (string * V).

Definition empty : t := [].

(** [d[k] = v] *)
Fixpoint set (d : t) (k : string) (v : V) : t :=
  match d with
  | [] => [(k, v)]
  | (k', v') :: d' =>
      if (k' =? k)%string then (k', v) :: d' else (k', v') :: set d' k v
  end.

(** [dict.fromkeys(keys, v)] *)
Definition fromkeys (keys : list string) (v : V) : t :=
  fold_left (fun d k => set d k v) keys empty.

(** [list(d)]: the keys, in order. *)
Definition keys (d : t) : list string := map fst d.

End WithValue.

End Dict.

(** ** build-test.py: [get_executable_paths] *)

Definition common_configs : list string :=
  ["Debug"; "Release"; "RelWithDebInfo"; "MinSizeRel"].

(** Lines 7 to 9: the candidates, before deduplication. *)
Definition candidate_paths (P : Platform) (build_dir target_name config : string)
  : list string :=
  let paths := [os_path_join P build_dir [config; target_name];
                os_path_join P build_dir [target_name]] in
  paths ++ map (fun conf => os_path_join P build_dir [conf; target_name])
               common_configs.

(** Line 10: [list(dict.fromkeys(paths))]. *)
Definition dedup (paths : list string) : list string :=
  Dict.keys (Dict.fromkeys paths tt).

(** Line 12: the expression applied to each path on Windows. *)
Definition add_exe (p : string) : string :=
  if negb (PyStr.endswith (PyStr.lower p) ".exe") then p ++ ".exe" else p.

(** Lines 11 and 12. *)
Definition platform_suffix (P : Platform) (paths : list string) : list string :=
  if (sys_platform P =? "win32")%string then map add_exe paths else paths.

(** The value of [paths] after line 10, before the platform step. *)
Definition paths_before_suffix (P : Platform) (build_dir target_name config : string)
  : list string :=
  dedup (candidate_paths P build_dir target_name config).

Definition get_executable_paths (P : Platform) (build_dir target_name config : string)
  : list string :=
  platform_suffix P (paths_before_suffix P build_dir target_name config).

(** ** Processes, exceptions and the operating system

    The text that the scripts print is not modelled.  What is modelled of
    the [print] calls is the decoding of captured output inside them, which
    can fail. *)

Module Py.

(** Output captured from a process, as bytes: bytes that decode to a text,
    or bytes that do not decode (they are not empty then). *)
Inductive Captured : Type :=
| Text (s : string)
| Garbled.

(** [subprocess.CompletedProcess]; its output is of type [Captured] when
    captured as bytes and of type [string] when captured as text. *)
Record CompletedProcess (O : Type) : Type := {
  returncode : Z;
  stdout : O;
  stderr : O
}.

(** Why the operating system could not start a program. *)
Inductive OSErr : Type :=
| ENOENT   (* no such file: [FileNotFoundError] *)
| EOTHER.  (* any other [OSError] *)

Inductive exn : Type :=
| CalledProcessError (cmd : list string) (cp : CompletedProcess Captured)
| FileNotFoundError
| OSError
| UnicodeDecodeError
| SystemExit (code : Z).

Definition exn_of_oserr (e : OSErr) : exn :=
  match e with
  | ENOENT => FileNotFoundError
  | EOTHER => OSError
  end.

(** What the host does for the scripts, over a state of the world [W]. *)
Record OS (W : Type) : Type := {
  (** start [argv] in directory [cwd] and wait for it *)
  spawn : list string -> option string -> W
          -> (OSErr + CompletedProcess Captured) * W;
  (** [os.path.exists] *)
  path_exists : string -> W -> bool;
  (** [shutil.rmtree(_, ignore_errors=True)] *)
  rmtree : string -> W -> W;
  (** [os.makedirs(_, exist_ok=True)] *)
  makedirs : string -> W -> option OSErr * W;
  (** [shutil.which] *)
  which : string -> W -> option string
}.

(** One subprocess that was started (or that failed to start). *)
Record Call : Type := {
  argv : list string;
  cwd : option string;
  outcome : OSErr + CompletedProcess Captured
}.

Definition succeeded (c : Call) : bool :=
  match outcome c with
  | inr cp => (returncode cp =? 0)%Z
  | inl _ => false
  end.

Definition failed (c : Call) : bool := negb (succeeded c).

(** The process exited with a non-zero status (it did start). *)
Definition exited_nonzero (c : Call) : bool :=
  match outcome c with
  | inr cp => negb (returncode cp =? 0)%Z
  | inl _ => false
  end.


(** The standard output of the process decodes. *)
Definition stdout_decodes (c : Call) : bool :=
  match outcome c with
  | inr cp => match stdout cp with Text _ => true | Garbled => false end
  | inl _ => false
  end.

Record State (W : Type) : Type := {
  world : W;
  calls : list Call   (* oldest first *)
}.

Inductive res (A : Type) : Type :=
| Ret (a : A)
| Raise (e : exn).
Arguments Raise {A} e.

Section Monad.
Context {W : Type}.

Definition M (A : Type) : Type := State W -> res A * State W.

Definition ret {A} (a : A) : M A := fun st => (Ret a, st).

Definition raise {A} (e : exn) : M A := fun st => (Raise e, st).

Definition bind {A B} (m : M A) (k : A -> M B) : M B :=
  fun st =>
    match m st with
    | (Ret a, st') => k a st'
    | (Raise e, st') => (Raise e, st')
    end.

(** [try: body except ...: handler]; the handler answers [None] for an
    exception that no [except] clause matches. *)
Definition try_except {A} (body : M A) (handler : exn -> option (M A)) : M A :=
  fun st =>
    match body st with
    | (Ret a, st') => (Ret a, st')
    | (Raise e, st') =>
        match handler e with
        | Some h => h st'
        | None => (Raise e, st')
        end
    end.

(** [sys.exit(code)] *)
Definition sys_exit {A} (code : Z) : M A := raise (SystemExit code).

Variable os : OS W.

(** [subprocess.run(argv, cwd=cwd, check=True, capture_output=True)]: the
    output is captured as bytes. *)
Definition subprocess_run (args : list string) (dir : option string)
  : M (CompletedProcess Captured) :=
  fun st =>
    let '(r, w) := spawn os args dir (world st) in
    let st' := {| world := w;
                  calls := calls st ++ [{| argv := args; cwd := dir; outcome := r |}] |} in
    match r with
    | inl e => (Raise (exn_of_oserr e), st')
    | inr cp =>
        if (returncode cp =? 0)%Z then (Ret cp, st')
        else (Raise (CalledProcessError args cp), st')
    end.

(** [subprocess.run(argv, capture_output=True, text=True, check=True)]: the
    output is decoded when the process has ended, before its exit status
    is looked at. *)
Definition subprocess_run_text (args : list string) (dir : option string)
  : M (CompletedProcess string) :=
  fun st =>
    let '(r, w) := spawn os args dir (world st) in
    let st' := {| world := w;
                  calls := calls st ++ [{| argv := args; cwd := dir; outcome := r |}] |} in
    match r with
    | inl e => (Raise (exn_of_oserr e), st')
    | inr cp =>
        match stdout cp, stderr cp with
        | Text out, Text err =>
            if (returncode cp =? 0)%Z
            then (Ret {| returncode := returncode cp; stdout := out;
                         stderr := err |}, st')
            else (Raise (CalledProcessError args cp), st')
        | _, _ => (Raise UnicodeDecodeError, st')
        end
    end.

(** [b.decode()] *)
Definition decode (b : Captured) : M string :=
  match b with
  | Text s => ret s
  | Garbled => raise UnicodeDecodeError
  end.

(** Truth value of captured bytes: [not b] holds of the empty bytes only. *)
Definition bytes_truthy (b : Captured) : bool :=
  match b with
  | Text s => PyStr.truthy s
  | Garbled => true
  end.

Definition os_path_exists (p : string) : M bool :=
  fun st => (Ret (path_exists os p (world st)), st).

Definition shutil_rmtree (p : string) : M unit :=
  fun st => (Ret tt, {| world := rmtree os p (world st); calls := calls st |}).

Definition os_makedirs (p : string) : M unit :=
  fun st =>
    let '(r, w) := makedirs os p (world st) in
    let st' := {| world := w; calls := calls st |} in
    match r with
    | None => (Ret tt, st')
    | Some e => (Raise (exn_of_oserr e), st')
    end.

Definition shutil_which (name : string) : M (option string) :=
  fun st => (Ret (which os name (world st)), st).

End Monad.

(** The exit status of the interpreter: 0 when the script runs to its end,
    the code of [sys.exit], and 1 for an exception that nothing caught. *)
Definition exit_status {A} (r : res A) : Z :=
  match r with
  | Ret _ => 0
  | Raise (SystemExit code) => code
  | Raise _ => 1
  end.

End Py.

Declare Scope py_scope.
Delimit Scope py_scope with py.
Notation "x <- m ;; k" := (Py.bind m (fun x => k))
  (at level 61, m at next level, right associativity) : py_scope.
Notation "m ;; k" := (Py.bind m (fun _ => k))
  (at level 61, right associativity) : py_scope.
Local Open Scope py_scope.

(** [s.strip()]: leading and trailing white space removed. *)
Module Strip.

(** The code points below 256 for which [str.isspace] holds. *)
Definition is_space (c : ascii) : bool :=
  let n := nat_of_ascii c in
  ((9 <=? n) && (n <=? 13) || (28 <=? n) && (n <=? 32)
   || (n =? 133) || (n =? 160))%nat.

Fixpoint lstrip_list (l : list ascii) : list ascii :=
  match l with
  | c :: r => if is_space c then lstrip_list r else l
  | [] => []
  end.

Definition strip (s : string) : string :=
  string_of_list_ascii
    (rev (lstrip_list (rev (lstrip_list (list_ascii_of_string s))))).

End Strip.

(** Equality of command lines. *)
Definition argv_eqb (a b : list string) : bool :=
  if list_eq_dec string_dec a b then true else false.

(** ** release.py *)

Module Release.

(** The parsed command line ([argparse.Namespace]); [message] is [None]
    when [-m] is absent, and a [delete] command line leaves [message] and
    [push_commits] unread. *)
Record Namespace : Type := {
  action : string;
  tag_name : string;
  message : option string;
  push_commits : bool
}.

Section WithOS.
Context {W : Type} (os : Py.OS W).

Definition get_current_branch : Py.M (W := W) (option string) :=
  Py.try_except
    (result <- Py.subprocess_run_text os ["git"; "rev-parse"; "--abbrev-ref"; "HEAD"] None ;;
     Py.ret (Some (Strip.strip (Py.stdout result))))
    (fun e =>
       match e with
       | Py.CalledProcessError _ _ => Some (Py.ret None)
       | _ => None
       end).

(** [if not message: message = f"Release {tag_name}"] *)
Definition effective_message (tag : string) (msg : option string) : string :=
  match msg with
  | Some m => if PyStr.truthy m then m else "Release " ++ tag
  | None => "Release " ++ tag
  end.

Definition create_tag (tag : string) (msg : option string) (push : bool)
  : Py.M (W := W) bool :=
  let msg := effective_message tag msg in
  Py.try_except
    ((if push then
        current_branch <- get_current_branch ;;
        match current_branch with
        | Some b =>
            if PyStr.truthy b then
              Py.subprocess_run_text os ["git"; "push"; "origin"; b] None ;;
              Py.ret tt
            else Py.ret tt
        | None => Py.ret tt
        end
      else Py.ret tt) ;;
     Py.subprocess_run_text os ["git"; "tag"; "-a"; tag; "-m"; msg] None ;;
     Py.subprocess_run_text os ["git"; "push"; "origin"; tag] None ;;
     Py.ret true)
    (fun e =>
       match e with
       | Py.CalledProcessError _ _ => Some (Py.ret false)
       | _ => None
       end).

Definition delete_tag (tag : string) : Py.M (W := W) bool :=
  Py.try_except
    (Py.subprocess_run_text os ["git"; "push"; "--delete"; "origin"; tag] None ;;
     Py.subprocess_run_text os ["git"; "tag"; "--delete"; tag] None ;;
     Py.ret true)
    (fun e =>
       match e with
       | Py.CalledProcessError _ _ => Some (Py.ret false)
       | _ => None
       end).

Definition main (args : Namespace) : Py.M (W := W) unit :=
  success <-
    (if (action args =? "create")%string then
       create_tag (tag_name args) (message args) (push_commits args)
     else if (action args =? "delete")%string then
       delete_tag (tag_name args)
     else Py.ret false) ;;
  if negb success then Py.sys_exit 1 else Py.ret tt.

(** The script from its first line: the check for git (lines 8 to 10),
    then [main]. *)
Definition script (args : Namespace) : Py.M (W := W) unit :=
  git <- Py.shutil_which os "git" ;;
  match git with
  | None => Py.sys_exit 1
  | Some _ => main args
  end.

(** A run of the script from world [w]: the exit status and the
    subprocesses started, oldest first. *)
Definition run (args : Namespace) (w : W) : Z * list Py.Call :=
  let '(r, st) := script args {| Py.world := w; Py.calls := [] |} in
  (Py.exit_status r, Py.calls st).

End WithOS.

Definition create_args (tag : string) (msg : option string) (push : bool)
  : Namespace :=
  {| action := "create"; tag_name := tag; message := msg; push_commits := push |}.

Definition delete_args (tag : string) : Namespace :=
  {| action := "delete"; tag_name := tag; message := None; push_commits := false |}.

(** The commands of the two operations. *)
Definition rev_parse_cmd : list string :=
  ["git"; "rev-parse"; "--abbrev-ref"; "HEAD"].
Definition tag_cmd (tag msg : string) : list string :=
  ["git"; "tag"; "-a"; tag; "-m"; msg].
Definition push_tag_cmd (tag : string) : list string :=
  ["git"; "push"; "origin"; tag].
Definition delete_local_cmd (tag : string) : list string :=
  ["git"; "tag"; "--delete"; tag].

(** The command line is an invocation of [git tag -a]. *)
Definition is_tag_cmd (args : list string) : bool :=
  match args with
  | g :: sub :: flag :: _ => (g =? "git") && (sub =? "tag") && (flag =? "-a")
  | _ => false
  end.

(** The branch lookup ran and exited with a non-zero status. *)
Definition lookup_exited_nonzero (c : Py.Call) : bool :=
  argv_eqb (Py.argv c) rev_parse_cmd && Py.exited_nonzero c.

End Release.

(** ** build-test.py: [run_cmake_build_and_execute] *)

Module BuildTest.

Section WithOS.
Context {W : Type} (os : Py.OS W) (P : Platform).

(** [next((p for p in l if os.path.exists(p)), default)]: the paths are
    probed one by one, and probing stops at the first that exists. *)
Fixpoint next_existing (l : list string) (default : string)
  : Py.M (W := W) string :=
  match l with
  | [] => Py.ret default
  | p :: r =>
      found <- Py.os_path_exists os p ;;
      if found then Py.ret p else next_existing r default
  end.

(** Lines 42 and 43. *)
Definition locate_executable (build_dir target_name config : string)
  : Py.M (W := W) (list string * string) :=
  let possible_execs := get_executable_paths P build_dir target_name config in
  let default :=
    match possible_execs with
    | first :: _ => first
    | [] => os_path_join P build_dir [config; target_name]
    end in
  exec_path <- next_existing possible_execs default ;;
  Py.ret (possible_execs, exec_path).

(** [e.stderr.decode() if e.stderr else e], the value printed at lines 31
    and 39. *)
Definition report_stderr (cp : Py.CompletedProcess Py.Captured)
  : Py.M (W := W) unit :=
  if Py.bytes_truthy (Py.stderr cp)
  then Py.decode (Py.stderr cp) ;; Py.ret tt
  else Py.ret tt.

(** Lines 17 to 40: clean, configure, build. *)
Definition configure_and_build
  (build_dir target_name : string) (generator : option string)
  (config : string) (clean_build : bool) : Py.M (W := W) unit :=
  let cmake_cmd :=
    match generator with
    | Some g => if PyStr.truthy g then ["cmake"; "."; "-G"; g] else ["cmake"; "."]
    | None => ["cmake"; "."]
    end in
  let build_cmd :=
    ["cmake"; "--build"; build_dir; "--config"; config; "--target"; target_name] in
  (if clean_build then Py.shutil_rmtree os build_dir else Py.ret tt) ;;
  Py.os_makedirs os build_dir ;;
  Py.try_except
    (Py.subprocess_run os cmake_cmd (Some build_dir) ;; Py.ret tt)
    (fun e =>
       match e with
       | Py.CalledProcessError _ cp => Some (report_stderr cp ;; Py.sys_exit 1)
       | _ => None
       end) ;;
  Py.try_except
    (Py.subprocess_run os build_cmd None ;; Py.ret tt)
    (fun e =>
       match e with
       | Py.CalledProcessError _ cp => Some (report_stderr cp ;; Py.sys_exit 1)
       | _ => None
       end).

(** Lines 45 to 54. *)
Definition execute (exec_path : string) : Py.M (W := W) unit :=
  Py.try_except
    (result <- Py.subprocess_run os [exec_path] None ;;
     Py.decode (Py.stdout result) ;;
     Py.ret tt)
    (fun e =>
       match e with
       | Py.FileNotFoundError => Some (Py.sys_exit 1)
       | Py.CalledProcessError _ cp =>
           Some (Py.decode (Py.stdout cp) ;; Py.decode (Py.stderr cp) ;;
                 Py.sys_exit 1)
       | _ => None
       end).

Definition run_cmake_build_and_execute
  (build_dir target_name : string) (generator : option string)
  (config : string) (clean_build : bool) : Py.M (W := W) unit :=
  configure_and_build build_dir target_name generator config clean_build ;;
  located <- locate_executable build_dir target_name config ;;
  execute (snd located).

End WithOS.

End BuildTest.

(** ** Notions used to state the properties *)

(** The string contains a path separator. *)
Fixpoint has_sep (s : string) : bool :=
  match s with
  | EmptyString => false
  | String c r => (c =? "/")%char || has_sep r
  end.

Definition mem (x : string) (l : list string) : bool :=
  existsb (String.eqb x) l.

(** [y] is not [x]. *)
Definition differs (x y : string) : bool := negb (y =? x)%string.

(** Position of the first occurrence of [x] in [l] ([length l] if none). *)
Fixpoint index_of (x : string) (l : list string) : nat :=
  match l with
  | [] => 0
  | y :: r => if (y =? x)%string then 0 else S (index_of x r)
  end.

(** Deduplication as the specification words it: go through the sequence
    once, keep the set of the entries seen so far, and emit an entry only
    the first time it is seen. *)
Fixpoint first_seen (seen : list string) (l : list string) : list string :=
  match l with
  | [] => []
  | x :: r =>
      if mem x seen then first_seen seen r else x :: first_seen (x :: seen) r
  end.

(** What a POSIX join puts in front of a relative component. *)
Definition dir_prefix (b : string) : string :=
  if negb (PyStr.truthy b) || PyStr.endswith b PosixPath.sep then b
  else b ++ PosixPath.sep.

(** What [ntpath.join] puts in front of a relative component that has no
    drive. *)
Definition nt_dir_prefix (b : string) : string :=
  let '(d, r) := NtPath.splitdrive b in
  (if negb (NtPath.starts_with_sep r) && PyStr.truthy d
      && negb (PyStr.drop (String.length d - 1) d =? NtPath.colon)%string
   then d ++ NtPath.sep else d)
  ++ (if NtPath.ends_without_sep r then r ++ NtPath.sep else r).

(** The hosts Python runs on: [os.path] is [ntpath] where [sys.platform]
    is "win32", and [posixpath] everywhere else. *)
Definition python_host (P : Platform) : Prop :=
  if (sys_platform P =? "win32")%string
  then os_path_join P = NtPath.join
  else os_path_join P = PosixPath.join.

(** A name without a path separator of the host and, on Windows, without a
    drive in front (a colon as its second character). *)
Definition plain_name (P : Platform) (s : string) : bool :=
  if (sys_platform P =? "win32")%string
  then negb (NtPath.has_sep s) && negb (NtPath.has_drive s)
  else negb (has_sep s).

(** The separator of the host, and what its join puts in front of a plain
    name. *)
Definition host_sep (P : Platform) : string :=
  if (sys_platform P =? "win32")%string then NtPath.sep else PosixPath.sep.

Definition host_prefix (P : Platform) (b : string) : string :=
  if (sys_platform P =? "win32")%string then nt_dir_prefix b else dir_prefix b.

(** [p] is the first entry of [l] that exists, or the first entry of [l]
    when none exists. *)
Definition first_existing_or_first
  (exists_ : string -> bool) (l : list string) (p : string) : Prop :=
  (exists l1 l2, l = l1 ++ p :: l2 /\ exists_ p = true
                 /\ forall q, In q l1 -> exists_ q = false)
  \/ ((forall q, In q l -> exists_ q = false) /\ exists r, l = p :: r).

(** ** Hosts used in the examples *)

Module Hosts.

(** A host with a fixed file system ([files]) and git installed, where a
    command exits with the status [status] gives it and prints [out]. *)
Definition fixed (files : list string) (status : list string -> Z)
                 (out : list string -> string) : Py.OS unit :=
  {| Py.spawn := fun args _ w =>
       (inr {| Py.returncode := status args; Py.stdout := Py.Text (out args);
               Py.stderr := Py.Text "" |}, w);
     Py.path_exists := fun p _ => mem p files;
     Py.rmtree := fun _ w => w;
     Py.makedirs := fun _ w => (None, w);
     Py.which := fun name _ => Some ("/usr/bin/" ++ name)%string |}.

(** Every command succeeds. *)
Definition all_ok (files : list string) : Py.OS unit :=
  fixed files (fun _ => 0%Z) (fun _ => "main").

(** Only the command [bad] fails, with status 128. *)
Definition failing (bad : list string) : Py.OS unit :=
  fixed [] (fun args => if argv_eqb args bad then 128%Z else 0%Z)
        (fun _ => "main").

(** The Windows host of the examples. *)
Definition windows : Platform := win32_host.

(** A host on which no directory can be created. *)
Definition read_only : Py.OS unit :=
  {| Py.spawn := fun args _ w =>
       (inr {| Py.returncode := 0; Py.stdout := Py.Text "";
               Py.stderr := Py.Text "" |}, w);
     Py.path_exists := fun _ _ => false;
     Py.rmtree := fun _ w => w;
     Py.makedirs := fun _ w => (Some Py.EOTHER, w);
     Py.which := fun name _ => Some ("/usr/bin/" ++ name)%string |}.

(** A host where git prints the branch name with white space around it. *)
Definition padded_output : Py.OS unit :=
  fixed [] (fun _ => 0%Z)
        (fun _ => String " " (String " " ("main" ++ String (ascii_of_nat 10) EmptyString))).

(** A host without git. *)
Definition without_git : Py.OS unit :=
  {| Py.spawn := fun args _ w => (inl Py.ENOENT, w);
     Py.path_exists := fun _ _ => false;
     Py.rmtree := fun _ w => w;
     Py.makedirs := fun _ w => (None, w);
     Py.which := fun _ _ => None |}.

End Hosts.

(** ** Runs of build-test.py *)

Module BuildRun.

(** The configure command (line 17). *)
Definition cmake_cmd (generator : option string) : list string :=
  match generator with
  | Some g => if PyStr.truthy g then ["cmake"; "."; "-G"; g] else ["cmake"; "."]
  | None => ["cmake"; "."]
  end.

(** The build command (line 18). *)
Definition build_cmd (build_dir target_name config : string) : list string :=
  ["cmake"; "--build"; build_dir; "--config"; config; "--target"; target_name].

(** A run of [run_cmake_build_and_execute] from world [w]: the exit status
    and the subprocesses started, oldest first. *)
Definition run {W : Type} (os : Py.OS W) (P : Platform)
  (build_dir target_name : string) (generator : option string)
  (config : string) (clean_build : bool) (w : W) : Z * list Py.Call :=
  let '(r, st) :=
    BuildTest.run_cmake_build_and_execute os P build_dir target_name generator
      config clean_build {| Py.world := w; Py.calls := [] |} in
  (Py.exit_status r, Py.calls st).

(** What was started and where. *)
Definition invocation (c : Py.Call) : list string * option string :=
  (Py.argv c, Py.cwd c).

End BuildRun.

(** ** Proof automation for the runs of the scripts *)

(** Case analysis on what the host answers. *)
Ltac host_cases :=
  repeat match goal with
    | |- context [Py.which ?os ?n ?w] =>
        let g := fresh "git" in destruct (Py.which os n w) as [g|] eqn:?
    | |- context [Py.spawn ?os ?a ?d ?w] =>
        let r := fresh "r" in let w' := fresh "w" in
        destruct (Py.spawn os a d w) as [[r|r] w'] eqn:?
    | |- context [match Py.stdout ?cp with Py.Text _ => _ | Py.Garbled => _ end] =>
        destruct (Py.stdout cp) eqn:?
    | |- context [match Py.stderr ?cp with Py.Text _ => _ | Py.Garbled => _ end] =>
        destruct (Py.stderr cp) eqn:?
    | |- context [(Py.returncode ?cp =? 0)%Z] =>
        destruct (Py.returncode cp =? 0)%Z eqn:?
    | |- context [PyStr.truthy ?s] =>
        destruct (PyStr.truthy s) eqn:?
    | r : Py.OSErr |- _ => destruct r
    | _ => progress cbn
    end.


Ltac unfold_script :=
  unfold Release.run, Release.script, Release.main, Release.create_tag,
    Release.delete_tag, Release.get_current_branch, Release.create_args,
    Release.delete_args, Py.subprocess_run_text, Py.shutil_which,
    Py.try_except,
    Py.bind, Py.ret, Py.sys_exit, Py.raise;
  cbn.

Ltac split_calls :=
  repeat match goal with
    | H : _ \/ _ |- _ => destruct H as [H|H]
    | H : False |- _ => destruct H
    | H : _ /\ _ |- _ => destruct H
    | H : {| Py.argv := _; Py.cwd := _; Py.outcome := _ |} = ?c |- _ => subst c
    end.

(** Closes a goal about an explicit record of calls. *)
Ltac trace_facts :=
  repeat match goal with
    | |- _ /\ _ => split
    | |- forall _, _ => intro
    | |- ~ _ => intro
    | |- exists n : nat, _ = firstn n _ =>
        (exists 0%nat; reflexivity) || (exists 1%nat; reflexivity)
        || (exists 2%nat; reflexivity)
    end;
  split_calls;
  unfold Py.failed, Py.succeeded, Py.exited_nonzero in *; cbn in *;
  repeat match goal with
    | E : (Py.returncode ?cp =? 0)%Z = _, H : context [(Py.returncode ?cp =? 0)%Z] |- _ =>
        rewrite E in H; cbn in H
    | E : (Py.returncode ?cp =? 0)%Z = _ |- context [(Py.returncode ?cp =? 0)%Z] =>
        rewrite E; cbn
    end;
  try discriminate; try congruence; try reflexivity.

Ltac last_two :=
  match goal with
  | |- exists c1 c2 pre, [?a; ?b] = _ /\ _ => exists a, b, []
  | |- exists c1 c2 pre, [?x; ?a; ?b] = _ /\ _ => exists a, b, [x]
  | |- exists c1 c2 pre, [?x; ?y; ?a; ?b] = _ /\ _ => exists a, b, [x; y]
  end.

Ltac last_call :=
  match goal with
  | |- exists earlier, [?a] = _ => exists []
  | |- exists earlier, [?x; ?a] = _ => exists [x]
  | |- exists earlier, [?x; ?y; ?a] = _ => exists [x; y]
  | |- exists earlier, [?x; ?y; ?z; ?a] = _ => exists [x; y; z]
  end.

(** Closes a goal on the success or failure of an explicit call. *)
Ltac status_goal :=
  unfold Py.failed, Py.succeeded, Py.exited_nonzero; cbn [Py.outcome];
  repeat match goal with
    | H : (Py.returncode _ =? 0)%Z = _ |- _ => rewrite H
    end;
  reflexivity.

(** * Properties *)

(** ** Strings *)

Section StringFacts.
Local Open Scope string_scope.

Lemma append_assoc (a b c : string) : (a ++ b) ++ c = a ++ (b ++ c).
Proof. induction a as [|x a IH]; simpl; [reflexivity | now rewrite IH]. Qed.

Lemma append_empty_r (a : string) : a ++ "" = a.
Proof. induction a as [|x a IH]; simpl; [reflexivity | now rewrite IH]. Qed.

Lemma length_append (a b : string) :
  String.length (a ++ b) = (String.length a + String.length b)%nat.
Proof. induction a as [|x a IH]; simpl; [reflexivity | now rewrite IH]. Qed.

Lemma append_inv_head (a b c : string) : a ++ b = a ++ c -> b = c.
Proof.
  induction a as [|x a IH]; simpl; intros H; [exact H|].
  injection H as H. now apply IH.
Qed.

Lemma list_of_append (a b : string) :
  list_ascii_of_string (a ++ b)
  = (list_ascii_of_string a ++ list_ascii_of_string b)%list.
Proof. induction a as [|x a IH]; simpl; [reflexivity | now rewrite IH]. Qed.

Lemma list_of_string_inj (a b : string) :
  list_ascii_of_string a = list_ascii_of_string b -> a = b.
Proof.
  intros H.
  rewrite <- (string_of_list_ascii_of_string a),
          <- (string_of_list_ascii_of_string b).
  now rewrite H.
Qed.

Lemma append_inv_tail (a b c : string) : b ++ a = c ++ a -> b = c.
Proof.
  intros H. apply list_of_string_inj.
  apply (f_equal list_ascii_of_string) in H.
  rewrite !list_of_append in H.
  now apply app_inv_tail in H.
Qed.

(** A string is not a proper extension of itself. *)
Lemma append_longer (a b : string) : a <> "" -> a ++ b <> b.
Proof.
  intros Ha H. apply (f_equal String.length) in H.
  rewrite length_append in H.
  destruct a; [now apply Ha | simpl in H; lia].
Qed.

Lemma endswith_append (p s : string) : PyStr.endswith (p ++ s) s = true.
Proof.
  induction p as [|x p IH].
  - destruct s; cbn [PyStr.endswith append]; now rewrite String.eqb_refl.
  - cbn [PyStr.endswith append]. rewrite IH. apply orb_true_r.
Qed.

Lemma lower_append (a b : string) :
  PyStr.lower (a ++ b) = PyStr.lower a ++ PyStr.lower b.
Proof. induction a as [|x a IH]; simpl; [reflexivity | now rewrite IH]. Qed.

(** Whether a path ends with the separator depends on its last component,
    when that component is not empty. *)
Lemma endswith_sep_append (a c : string) :
  c <> "" ->
  PyStr.endswith (a ++ c) PosixPath.sep = PyStr.endswith c PosixPath.sep.
Proof.
  intros Hc. induction a as [|x a IH]; simpl; [reflexivity|].
  rewrite IH.
  destruct (a ++ c) eqn:E.
  - destruct a; [simpl in E; now subst | discriminate].
  - unfold PosixPath.sep. simpl. now destruct (x =? "/")%char.
Qed.

Lemma no_sep_startswith (s : string) :
  has_sep s = false -> PyStr.startswith s PosixPath.sep = false.
Proof.
  destruct s as [|c r]; [reflexivity|]. cbn [has_sep].
  intros H. apply orb_false_elim in H as [H _].
  unfold PyStr.startswith, PosixPath.sep. cbn [String.prefix].
  destruct (ascii_dec "/" c) as [E|E]; [|reflexivity].
  subst c. discriminate H.
Qed.

Lemma no_sep_endswith (s : string) :
  has_sep s = false -> PyStr.endswith s PosixPath.sep = false.
Proof.
  induction s as [|c r IH]; simpl; [reflexivity|].
  intros H. apply orb_false_elim in H as [Hc Hr].
  rewrite (IH Hr), orb_false_r. unfold PosixPath.sep. simpl.
  now rewrite Hc.
Qed.

Lemma truthy_append_r (a c : string) : c <> "" -> PyStr.truthy (a ++ c) = true.
Proof.
  intros Hc. unfold PyStr.truthy.
  destruct (a ++ c) eqn:E; [|reflexivity].
  destruct a; [simpl in E; now subst | discriminate].
Qed.

End StringFacts.

(** ** Deduplication through an ordered dictionary *)

Section Dedup.

Lemma mem_In (x : string) (l : list string) : mem x l = true <-> In x l.
Proof.
  unfold mem. rewrite existsb_exists. split.
  - intros [y [Hy E]]. apply String.eqb_eq in E. now subst.
  - intros H. exists x. split; [exact H | apply String.eqb_refl].
Qed.

Lemma mem_false (x : string) (l : list string) : mem x l = false <-> ~ In x l.
Proof.
  rewrite <- mem_In. destruct (mem x l); split; intros H; try easy.
Qed.

Lemma mem_app (x : string) (l1 l2 : list string) :
  mem x (l1 ++ l2) = mem x l1 || mem x l2.
Proof. apply existsb_app. Qed.

Lemma keys_set (V : Type) (d : Dict.t V) (k : string) (v : V) :
  Dict.keys (Dict.set d k v)
  = if mem k (Dict.keys d) then Dict.keys d else Dict.keys d ++ [k].
Proof.
  induction d as [|[k' v'] d IH]; [reflexivity|].
  cbn [Dict.set Dict.keys map fst mem existsb].
  rewrite (String.eqb_sym k k').
  destruct (k' =? k)%string; [reflexivity|].
  cbn [map fst orb]. fold (Dict.keys d) (Dict.keys (Dict.set d k v)) (mem k (Dict.keys d)).
  rewrite IH. now destruct (mem k (Dict.keys d)).
Qed.

Lemma first_seen_ext (l : list string) :
  forall s1 s2, (forall y, mem y s1 = mem y s2) ->
                first_seen s1 l = first_seen s2 l.
Proof.
  induction l as [|x r IH]; intros s1 s2 H; [reflexivity|].
  cbn [first_seen]. rewrite (H x).
  destruct (mem x s2); [now apply IH|].
  f_equal. apply IH. intros y. cbn [mem existsb]. fold (mem y s1) (mem y s2).
  now rewrite H.
Qed.

Lemma keys_fold_set (V : Type) (v : V) (l : list string) :
  forall d : Dict.t V,
    Dict.keys (fold_left (fun d k => Dict.set d k v) l d)
    = Dict.keys d ++ first_seen (Dict.keys d) l.
Proof.
  induction l as [|x r IH]; intros d; cbn [fold_left first_seen].
  - now rewrite app_nil_r.
  - rewrite IH, keys_set.
    destruct (mem x (Dict.keys d)); [reflexivity|].
    rewrite <- app_assoc. cbn [app]. do 2 f_equal.
    apply first_seen_ext. intros y.
    rewrite mem_app. cbn [mem existsb]. fold (mem y (Dict.keys d)).
    now rewrite orb_false_r, orb_comm.
Qed.

(** The dictionary construction of the code computes the deduplication of
    the specification. *)
Lemma dedup_first_seen (l : list string) : dedup l = first_seen [] l.
Proof. unfold dedup, Dict.fromkeys. now rewrite keys_fold_set. Qed.

Lemma filter_idem (A : Type) (f : A -> bool) (l : list A) :
  filter f (filter f l) = filter f l.
Proof.
  induction l as [|a l IH]; [reflexivity|].
  cbn [filter]. destruct (f a) eqn:E; [|exact IH].
  cbn [filter]. now rewrite E, IH.
Qed.

Lemma differs_true (x y : string) : differs x y = true <-> y <> x.
Proof.
  unfold differs. rewrite negb_true_iff. apply String.eqb_neq.
Qed.

Lemma differs_same (x : string) : differs x x = false.
Proof. unfold differs. now rewrite String.eqb_refl. Qed.

Lemma first_seen_cons_seen (x : string) (l : list string) :
  forall seen, first_seen (x :: seen) l = filter (differs x) (first_seen seen l).
Proof.
  induction l as [|y r IH]; intros seen; [reflexivity|].
  cbn [first_seen mem existsb]. fold (mem y seen).
  destruct (String.eqb_spec y x) as [E|E].
  - subst y. cbn [orb]. rewrite IH.
    destruct (mem x seen); [reflexivity|].
    cbn [filter]. now rewrite differs_same, filter_idem.
  - cbn [orb]. destruct (mem y seen); [apply IH|].
    cbn [filter]. rewrite (proj2 (differs_true x y) E). f_equal.
    rewrite <- IH. apply first_seen_ext. intros z.
    cbn [mem existsb]. now rewrite !orb_assoc, (orb_comm (z =? y)%string).
Qed.

Lemma dedup_cons (x : string) (l : list string) :
  dedup (x :: l) = x :: filter (differs x) (dedup l).
Proof.
  rewrite !dedup_first_seen. cbn [first_seen mem existsb].
  now rewrite first_seen_cons_seen.
Qed.

Lemma dedup_nil : dedup [] = [].
Proof. reflexivity. Qed.

Lemma In_dedup (l : list string) (p : string) : In p (dedup l) <-> In p l.
Proof.
  induction l as [|x l IH]; [reflexivity|].
  rewrite dedup_cons. cbn [In]. rewrite filter_In, IH, differs_true.
  destruct (string_dec x p) as [E|E]; [now intuition|].
  split; [now intuition|]. intros [H|H]; [now left|right].
  split; [exact H | congruence].
Qed.

Lemma NoDup_dedup (l : list string) : NoDup (dedup l).
Proof.
  induction l as [|x l IH]; [constructor|].
  rewrite dedup_cons. constructor; [|now apply NoDup_filter].
  rewrite filter_In, differs_true. now intros [_ H].
Qed.

Lemma filter_differs_absent (x : string) (l : list string) :
  ~ In x l -> filter (differs x) l = l.
Proof.
  induction l as [|y l IH]; intros H; [reflexivity|].
  cbn [filter].
  assert (D : differs x y = true)
    by (apply differs_true; intros ->; apply H; now left).
  rewrite D, IH; [reflexivity|]. intros Hin. apply H. now right.
Qed.

(** A list without duplicates is left as it is. *)
Lemma dedup_NoDup_id (l : list string) : NoDup l -> dedup l = l.
Proof.
  induction 1 as [|x l Hx Hl IH]; [reflexivity|].
  now rewrite dedup_cons, IH, filter_differs_absent.
Qed.

Lemma filter_differs_present (x : string) (l1 l2 : list string) :
  NoDup (l1 ++ x :: l2) -> filter (differs x) (l1 ++ x :: l2) = l1 ++ l2.
Proof.
  intros H. pose proof (NoDup_remove_2 _ _ _ H) as Hx.
  apply NoDup_remove_1 in H.
  rewrite filter_app. cbn [filter]. rewrite differs_same.
  rewrite <- filter_app. apply filter_differs_absent. exact Hx.
Qed.

(** A repeated head entry absorbs its later occurrence. *)
Lemma dedup_repeated_head (x : string) (l1 l2 : list string) :
  NoDup (l1 ++ x :: l2) -> dedup (x :: l1 ++ x :: l2) = x :: l1 ++ l2.
Proof.
  intros H. now rewrite dedup_cons, (dedup_NoDup_id H), filter_differs_present.
Qed.

End Dedup.

(** ** Order of the entries kept by the deduplication *)

Section Order.

Lemma index_of_filter (x p q : string) (m : list string) :
  p <> x -> q <> x ->
  (index_of p (filter (differs x) m) < index_of q (filter (differs x) m)
   <-> index_of p m < index_of q m).
Proof.
  intros Hp Hq. induction m as [|y m IH]; [reflexivity|].
  cbn [filter]. destruct (String.eqb_spec y x) as [E|E].
  - subst y. rewrite differs_same. cbn [index_of].
    apply not_eq_sym, String.eqb_neq in Hp, Hq. rewrite Hp, Hq, IH. lia.
  - rewrite (proj2 (differs_true x y) E). cbn [index_of].
    destruct (y =? p)%string, (y =? q)%string; lia.
Qed.

Lemma index_of_dedup (l : list string) (p q : string) :
  index_of p (dedup l) < index_of q (dedup l)
  <-> index_of p l < index_of q l.
Proof.
  induction l as [|x l IH]; [reflexivity|].
  rewrite dedup_cons. cbn [index_of].
  destruct (String.eqb_spec x p) as [Ep|Ep], (String.eqb_spec x q) as [Eq|Eq];
    try lia.
  rewrite <- !Nat.succ_lt_mono, <- IH.
  apply index_of_filter; congruence.
Qed.

End Order.

(** ** Joining on a POSIX host *)

Section PosixJoin.
Local Open Scope string_scope.

Lemma posix_join1 (b t : string) :
  has_sep t = false -> PosixPath.join b [t] = dir_prefix b ++ t.
Proof.
  intros Ht. unfold PosixPath.join, PosixPath.join_step, dir_prefix.
  cbn [fold_left]. rewrite (no_sep_startswith _ Ht).
  destruct (negb (PyStr.truthy b) || PyStr.endswith b PosixPath.sep);
    [reflexivity | now rewrite append_assoc].
Qed.

Lemma posix_join2 (b c t : string) :
  c <> "" -> has_sep c = false -> has_sep t = false ->
  PosixPath.join b [c; t] = dir_prefix b ++ c ++ "/" ++ t.
Proof.
  intros Hc Hs Ht.
  change (PosixPath.join b [c; t])
    with (PosixPath.join_step (PosixPath.join b [c]) t).
  rewrite (posix_join1 b _ Hs). unfold PosixPath.join_step.
  rewrite (no_sep_startswith _ Ht), (truthy_append_r _ Hc),
          (endswith_sep_append _ Hc), (no_sep_endswith _ Hs).
  cbn [negb orb]. now rewrite append_assoc.
Qed.

Lemma layout_inj (d t c1 c2 : string) :
  d ++ c1 ++ "/" ++ t = d ++ c2 ++ "/" ++ t -> c1 = c2.
Proof.
  intros H. apply append_inv_head in H.
  rewrite <- !append_assoc in H. apply append_inv_tail in H.
  now apply (append_inv_tail "/") in H.
Qed.

Lemma layout_not_flat (d t c : string) : d ++ c ++ "/" ++ t <> d ++ t.
Proof.
  intros H. apply append_inv_head in H. rewrite <- append_assoc in H.
  revert H. apply append_longer. now destruct c.
Qed.

Lemma common_configs_wf (conf : string) :
  In conf common_configs -> conf <> "" /\ has_sep conf = false.
Proof.
  cbn [common_configs In]. intros H.
  repeat (destruct H as [<-|H]; [split; [discriminate | reflexivity]|]).
  contradiction.
Qed.

(** The candidates of a POSIX host, spelled out. *)
Lemma posix_candidates (name b t c : string) :
  c <> "" -> has_sep c = false -> has_sep t = false ->
  candidate_paths (posix_host name) b t c
  = (dir_prefix b ++ c ++ "/" ++ t) :: (dir_prefix b ++ t)
    :: map (fun conf => dir_prefix b ++ conf ++ "/" ++ t) common_configs.
Proof.
  intros Hc Hs Ht. unfold candidate_paths. cbn [posix_host os_path_join app].
  rewrite posix_join2, posix_join1 by assumption. do 2 f_equal.
  apply map_ext_in. intros conf Hin.
  destruct (common_configs_wf Hin) as [H1 H2].
  now apply posix_join2.
Qed.

End PosixJoin.

(** ** Joining on Windows *)

Section NtJoin.
Local Open Scope string_scope.

Lemma nt_no_sep_char (a : ascii) :
  NtPath.in_seps a = false ->
  (a =? NtPath.bs)%char = false /\ (a =? "/")%char = false.
Proof. unfold NtPath.in_seps. intros H. now apply orb_false_elim in H. Qed.

Lemma splitdrive_plain (x : string) :
  NtPath.has_sep x = false -> NtPath.has_drive x = false ->
  NtPath.splitdrive x = ("", x).
Proof.
  intros Hs Hd. destruct x as [|a [|b r]]; try reflexivity.
  cbn [NtPath.has_sep] in Hs.
  apply orb_false_elim in Hs as [Ha Hs]. apply orb_false_elim in Hs as [Hb _].
  destruct (nt_no_sep_char _ Ha) as [Ha1 Ha2].
  destruct (nt_no_sep_char _ Hb) as [Hb1 Hb2].
  assert (Z0 : forall s, String.substring 0 0 s = "") by (now intros []).
  unfold NtPath.has_drive in Hd. cbn [String.substring] in Hd.
  rewrite Z0 in Hd.
  unfold NtPath.splitdrive.
  change (2 <=? String.length (String a (String b r)))%nat with true.
  cbv iota. cbn [PyStr.replace_char PyStr.take String.substring].
  rewrite Ha2, Hb2, Z0.
  assert (E1 : (String a (String b "") =? NtPath.sep ++ NtPath.sep) = false)
    by (unfold NtPath.sep; cbn [append String.eqb]; now rewrite Ha1).
  now rewrite E1, Hd.
Qed.

Lemma starts_with_sep_plain (x : string) :
  NtPath.has_sep x = false -> NtPath.starts_with_sep x = false.
Proof.
  destruct x as [|a r]; [reflexivity|]. cbn [NtPath.has_sep].
  intros H. now apply orb_false_elim in H.
Qed.

Lemma last_char_append (a x : string) :
  x <> "" -> PyStr.last_char (a ++ x) = PyStr.last_char x.
Proof.
  intros Hx. induction a as [|c a IH]; [reflexivity|].
  cbn [append PyStr.last_char]. rewrite IH.
  destruct (a ++ x) eqn:E; [|reflexivity].
  destruct a; [simpl in E; now subst | discriminate].
Qed.

Lemma last_char_no_sep (x : string) (c : ascii) :
  NtPath.has_sep x = false -> PyStr.last_char x = Some c ->
  NtPath.in_seps c = false.
Proof.
  induction x as [|a r IH]; [discriminate|].
  cbn [NtPath.has_sep PyStr.last_char]. intros H.
  apply orb_false_elim in H as [Ha Hr].
  destruct r; [intros E; injection E as <-; exact Ha | now apply IH].
Qed.

Lemma ends_without_sep_append (a x : string) :
  x <> "" -> NtPath.has_sep x = false ->
  NtPath.ends_without_sep (a ++ x) = true.
Proof.
  intros Hx Hs. unfold NtPath.ends_without_sep.
  rewrite (last_char_append a Hx).
  destruct (PyStr.last_char x) as [c|] eqn:E.
  - now rewrite (last_char_no_sep x Hs E).
  - destruct x as [|c [|d r]]; [now elim Hx | discriminate |].
    clear -E. revert c d E. induction r as [|e r IH]; intros c d E.
    + discriminate.
    + apply (IH d e). exact E.
Qed.

Lemma nt_join_step_plain (d r x : string) :
  NtPath.has_sep x = false -> NtPath.has_drive x = false ->
  NtPath.join_step (d, r) x = (d, NtPath.append_relative r x).
Proof.
  intros Hs Hd. unfold NtPath.join_step.
  rewrite (splitdrive_plain x Hs Hd), (starts_with_sep_plain x Hs).
  reflexivity.
Qed.

Lemma starts_with_sep_append (r y : string) :
  NtPath.starts_with_sep y = false ->
  NtPath.starts_with_sep
    ((if NtPath.ends_without_sep r then r ++ NtPath.sep else r) ++ y)
  = NtPath.starts_with_sep r.
Proof.
  intros Hy. destruct r as [|c r]; [exact Hy|].
  now destruct (NtPath.ends_without_sep (String c r)).
Qed.

Lemma starts_with_sep_append_plain (x y : string) :
  x <> "" -> NtPath.has_sep x = false ->
  NtPath.starts_with_sep (x ++ y) = false.
Proof.
  intros Hx Hs. destruct x as [|c r]; [now elim Hx|].
  exact (starts_with_sep_plain (String c r) Hs).
Qed.

(** The shape of a join of plain names on Windows. *)
Lemma nt_join_shape (b x rest : string) :
  x <> "" -> NtPath.has_sep x = false ->
  (let '(d, r) := NtPath.splitdrive b in
   if PyStr.truthy
        ((if NtPath.ends_without_sep r then r ++ NtPath.sep else r) ++ x ++ rest)
      && negb (NtPath.starts_with_sep
                 ((if NtPath.ends_without_sep r then r ++ NtPath.sep else r)
                  ++ x ++ rest))
      && PyStr.truthy d
      && negb (PyStr.drop (String.length d - 1) d =? NtPath.colon)
   then d ++ NtPath.sep
        ++ (if NtPath.ends_without_sep r then r ++ NtPath.sep else r) ++ x ++ rest
   else d ++ (if NtPath.ends_without_sep r then r ++ NtPath.sep else r)
        ++ x ++ rest)
  = nt_dir_prefix b ++ x ++ rest.
Proof.
  intros Hx Hs. unfold nt_dir_prefix.
  destruct (NtPath.splitdrive b) as [d r].
  rewrite starts_with_sep_append
    by (now apply starts_with_sep_append_plain).
  assert (Ht : PyStr.truthy
                 ((if NtPath.ends_without_sep r then r ++ NtPath.sep else r)
                  ++ x ++ rest) = true).
  { rewrite <- append_assoc. unfold PyStr.truthy.
    destruct ((_ ++ x) ++ rest) eqn:E; [|reflexivity].
    destruct x; [now elim Hx|].
    destruct (if NtPath.ends_without_sep r then r ++ NtPath.sep else r);
      discriminate. }
  rewrite Ht. cbn [andb].
  destruct (negb (NtPath.starts_with_sep r) && PyStr.truthy d
            && negb (PyStr.drop (String.length d - 1) d =? NtPath.colon));
    now rewrite !append_assoc.
Qed.

Lemma nt_join1 (b t : string) :
  t <> "" -> NtPath.has_sep t = false -> NtPath.has_drive t = false ->
  NtPath.join b [t] = nt_dir_prefix b ++ t.
Proof.
  intros Ht Hs Hd. unfold NtPath.join. cbn [fold_left].
  destruct (NtPath.splitdrive b) as [d r] eqn:E.
  rewrite (@nt_join_step_plain d r t Hs Hd). unfold NtPath.append_relative.
  pose proof (@nt_join_shape b t "" Ht Hs) as H. rewrite E in H.
  rewrite !append_empty_r in H. exact H.
Qed.

Lemma nt_join2 (b c t : string) :
  c <> "" -> NtPath.has_sep c = false -> NtPath.has_drive c = false ->
  t <> "" -> NtPath.has_sep t = false -> NtPath.has_drive t = false ->
  NtPath.join b [c; t] = nt_dir_prefix b ++ c ++ NtPath.sep ++ t.
Proof.
  intros Hc Hcs Hcd Ht Hts Htd. unfold NtPath.join. cbn [fold_left].
  destruct (NtPath.splitdrive b) as [d r] eqn:E.
  rewrite (@nt_join_step_plain d r c Hcs Hcd), (@nt_join_step_plain d _ t Hts Htd).
  unfold NtPath.append_relative.
  rewrite (@ends_without_sep_append _ c Hc Hcs).
  pose proof (@nt_join_shape b c (NtPath.sep ++ t) Hc Hcs) as H. rewrite E in H.
  rewrite !append_assoc. exact H.
Qed.

End NtJoin.

(** ** Joining on either host *)

Section HostJoin.
Local Open Scope string_scope.

Lemma layout_inj_sep (d s t c1 c2 : string) :
  d ++ c1 ++ s ++ t = d ++ c2 ++ s ++ t -> c1 = c2.
Proof.
  intros H. apply append_inv_head in H.
  rewrite <- !append_assoc in H. apply append_inv_tail in H.
  now apply append_inv_tail in H.
Qed.

Lemma layout_not_flat_sep (d s t c : string) :
  s <> "" -> d ++ c ++ s ++ t <> d ++ t.
Proof.
  intros Hs H. apply append_inv_head in H. rewrite <- append_assoc in H.
  revert H. apply append_longer. destruct c; [exact Hs | discriminate].
Qed.

Lemma host_sep_not_empty (P : Platform) : host_sep P <> "".
Proof. unfold host_sep. now destruct (sys_platform P =? "win32"). Qed.

Lemma common_configs_plain (P : Platform) (conf : string) :
  In conf common_configs -> conf <> "" /\ plain_name P conf = true.
Proof.
  unfold plain_name. cbn [common_configs In]. intros H.
  repeat (destruct H as [<-|H];
          [split; [discriminate
                  | now destruct (sys_platform P =? "win32")]|]).
  contradiction.
Qed.

Lemma host_join1 (P : Platform) (b t : string) :
  python_host P -> t <> "" -> plain_name P t = true ->
  os_path_join P b [t] = host_prefix P b ++ t.
Proof.
  unfold python_host, plain_name, host_prefix.
  destruct (sys_platform P =? "win32"); intros -> Ht Hp.
  - apply andb_prop in Hp as [H1 H2].
    apply negb_true_iff in H1, H2. now apply nt_join1.
  - apply negb_true_iff in Hp. now apply posix_join1.
Qed.

Lemma host_join2 (P : Platform) (b c t : string) :
  python_host P -> c <> "" -> plain_name P c = true ->
  t <> "" -> plain_name P t = true ->
  os_path_join P b [c; t] = host_prefix P b ++ c ++ host_sep P ++ t.
Proof.
  unfold python_host, plain_name, host_prefix, host_sep.
  destruct (sys_platform P =? "win32"); intros -> Hc Hpc Ht Hpt.
  - apply andb_prop in Hpc as [H1 H2]. apply andb_prop in Hpt as [H3 H4].
    apply negb_true_iff in H1, H2, H3, H4. now apply nt_join2.
  - apply negb_true_iff in Hpc, Hpt. now apply posix_join2.
Qed.

(** The candidates of a host, spelled out for plain names. *)
Lemma host_candidates (P : Platform) (b t c : string) :
  python_host P -> c <> "" -> plain_name P c = true ->
  t <> "" -> plain_name P t = true ->
  candidate_paths P b t c
  = (host_prefix P b ++ c ++ host_sep P ++ t)
    :: (host_prefix P b ++ t)
    :: map (fun conf => host_prefix P b ++ conf ++ host_sep P ++ t)
           common_configs.
Proof.
  intros HP Hc Hpc Ht Hpt. unfold candidate_paths. cbn [app].
  rewrite host_join2, host_join1 by assumption. do 2 f_equal.
  apply map_ext_in. intros conf Hin.
  destruct (common_configs_plain P Hin) as [H1 H2].
  now apply host_join2.
Qed.

End HostJoin.

(** ** Counting the entries that survive *)

Section Layouts.
Variables (J : string -> string) (flat : string).
Hypothesis J_inj : forall a b, J a = J b -> a = b.
Hypothesis J_not_flat : forall a, J a <> flat.

Lemma conventional_NoDup : NoDup (flat :: map J common_configs).
Proof.
  constructor.
  - rewrite in_map_iff. intros [a [E _]]. exact (J_not_flat E).
  - apply Injective_map_NoDup; [exact J_inj|].
    unfold common_configs.
    repeat (constructor; [cbn [In]; intuition discriminate|]). constructor.
Qed.

Lemma dedup_conventional_config (c : string) :
  In c common_configs ->
  List.length (dedup (J c :: flat :: map J common_configs)) = 5.
Proof.
  pose proof conventional_NoDup as N. unfold common_configs in *.
  cbn [In map] in *. intros H.
  repeat (destruct H as [<-|H]; [|]); try contradiction.
  - pose proof (dedup_repeated_head (J "Debug") [flat]
                  [J "Release"; J "RelWithDebInfo"; J "MinSizeRel"] N) as E.
    cbn [app] in E. now rewrite E.
  - pose proof (dedup_repeated_head (J "Release") [flat; J "Debug"]
                  [J "RelWithDebInfo"; J "MinSizeRel"] N) as E.
    cbn [app] in E. now rewrite E.
  - pose proof (dedup_repeated_head (J "RelWithDebInfo")
                  [flat; J "Debug"; J "Release"] [J "MinSizeRel"] N) as E.
    cbn [app] in E. now rewrite E.
  - pose proof (dedup_repeated_head (J "MinSizeRel")
                  [flat; J "Debug"; J "Release"; J "RelWithDebInfo"] [] N) as E.
    cbn [app] in E. now rewrite E.
Qed.

Lemma dedup_other_config (c : string) :
  ~ In c common_configs ->
  dedup (J c :: flat :: map J common_configs)
  = J c :: flat :: map J common_configs.
Proof.
  intros H. apply dedup_NoDup_id. constructor; [|exact conventional_NoDup].
  cbn [In]. intros [E|E]; [exact (J_not_flat (eq_sym E))|].
  apply in_map_iff in E as [a [E Ha]]. apply J_inj in E. now subst.
Qed.

End Layouts.

(** ** [get_executable_paths]: the claims *)

Local Open Scope string_scope.

(** C1. On a host that is not Windows, build directory "build", target
    "app" and configuration "Release" give exactly the five paths
    build/Release/app, build/app, build/Debug/app, build/RelWithDebInfo/app
    and build/MinSizeRel/app, in this order. *)
Theorem release_scenario_posix (name : string) :
  name <> "win32" ->
  get_executable_paths (posix_host name) "build" "app" "Release"
  = ["build/Release/app"; "build/app"; "build/Debug/app";
     "build/RelWithDebInfo/app"; "build/MinSizeRel/app"].
Proof.
  intros H. unfold get_executable_paths, platform_suffix.
  cbn [posix_host sys_platform].
  apply String.eqb_neq in H. rewrite H. reflexivity.
Qed.

Lemma release_scenario_posix_witness :
  get_executable_paths linux "build" "app" "Release"
  = ["build/Release/app"; "build/app"; "build/Debug/app";
     "build/RelWithDebInfo/app"; "build/MinSizeRel/app"].
Proof. apply (@release_scenario_posix "linux"). discriminate. Defined.

(** C2, as the specification states it, fails: with configuration "Debug"
    the list before the suffix step has five entries, not four; and on
    Windows a target name with a drive in front, which holds no path
    separator, makes all candidates one. *)
Lemma debug_has_not_four_entries :
  paths_before_suffix linux "build" "app" "Debug"
  = ["build/Debug/app"; "build/app"; "build/Release/app";
     "build/RelWithDebInfo/app"; "build/MinSizeRel/app"]
  /\ List.length (paths_before_suffix linux "build" "app" "Debug") <> 4
  /\ paths_before_suffix win32_host "build" "C:app" "Debug" = ["C:app"].
Proof. repeat split. discriminate. Qed.

(** C2, amended. With configuration "Debug", a non-empty build directory and
    a non-empty target name without path separators of the host (and, on
    Windows, without a drive in front), the list before the suffix step has
    exactly five entries, all distinct; on Windows as on the other
    platforms. *)
Theorem debug_has_five_entries (P : Platform) (b t : string) :
  python_host P ->
  b <> "" -> t <> "" -> plain_name P t = true ->
  NoDup (paths_before_suffix P b t "Debug")
  /\ List.length (paths_before_suffix P b t "Debug") = 5.
Proof.
  intros HP _ Ht Hp. split; [apply NoDup_dedup|].
  unfold paths_before_suffix.
  destruct (@common_configs_plain P "Debug") as [Hc Hpc];
    [cbn [common_configs In]; now left|].
  rewrite host_candidates by assumption.
  apply (@dedup_conventional_config
           (fun conf => host_prefix P b ++ conf ++ host_sep P ++ t)
           (host_prefix P b ++ t)).
  - intros x y. apply layout_inj_sep.
  - intros x. apply layout_not_flat_sep, host_sep_not_empty.
  - cbn [common_configs In]. now left.
Qed.

Lemma debug_has_five_entries_witness :
  (NoDup (paths_before_suffix linux "build" "app" "Debug")
   /\ List.length (paths_before_suffix linux "build" "app" "Debug") = 5)
  /\ (NoDup (paths_before_suffix win32_host "build" "app" "Debug")
      /\ List.length (paths_before_suffix win32_host "build" "app" "Debug") = 5).
Proof.
  split.
  - apply (@debug_has_five_entries linux "build" "app");
      [reflexivity | discriminate | discriminate | reflexivity].
  - apply (@debug_has_five_entries win32_host "build" "app");
      [reflexivity | discriminate | discriminate | reflexivity].
Defined.

(** C3, as the specification states it, fails: with configuration
    "CustomStage" the list before the suffix step has six entries, not
    five; and on Windows a target name with a drive in front, which holds
    no path separator, makes all candidates one. *)
Lemma custom_has_not_five_entries :
  paths_before_suffix linux "build" "app" "CustomStage"
  = ["build/CustomStage/app"; "build/app"; "build/Debug/app";
     "build/Release/app"; "build/RelWithDebInfo/app"; "build/MinSizeRel/app"]
  /\ List.length (paths_before_suffix linux "build" "app" "CustomStage") <> 5
  /\ paths_before_suffix win32_host "build" "C:app" "CustomStage" = ["C:app"].
Proof. repeat split. discriminate. Qed.

(** C3, amended. With configuration "CustomStage", a non-empty build
    directory and a non-empty target name without path separators of the
    host (and, on Windows, without a drive in front), the list before the
    suffix step has exactly six entries, all distinct; on Windows as on the
    other platforms. *)
Theorem custom_has_six_entries (P : Platform) (b t : string) :
  python_host P ->
  b <> "" -> t <> "" -> plain_name P t = true ->
  NoDup (paths_before_suffix P b t "CustomStage")
  /\ List.length (paths_before_suffix P b t "CustomStage") = 6.
Proof.
  intros HP _ Ht Hp. split; [apply NoDup_dedup|].
  unfold paths_before_suffix.
  assert (Hpc : plain_name P "CustomStage" = true)
    by (unfold plain_name; now destruct (sys_platform P =? "win32")).
  rewrite host_candidates by (assumption || discriminate).
  rewrite (@dedup_other_config
             (fun conf => host_prefix P b ++ conf ++ host_sep P ++ t)
             (host_prefix P b ++ t)).
  - reflexivity.
  - intros x y. apply layout_inj_sep.
  - intros x. apply layout_not_flat_sep, host_sep_not_empty.
  - cbn [common_configs In]. intuition discriminate.
Qed.

Lemma custom_has_six_entries_witness :
  (NoDup (paths_before_suffix linux "build" "app" "CustomStage")
   /\ List.length (paths_before_suffix linux "build" "app" "CustomStage") = 6)
  /\ (NoDup (paths_before_suffix win32_host "build" "app" "CustomStage")
      /\ List.length (paths_before_suffix win32_host "build" "app" "CustomStage")
         = 6).
Proof.
  split.
  - apply (@custom_has_six_entries linux "build" "app");
      [reflexivity | discriminate | discriminate | reflexivity].
  - apply (@custom_has_six_entries win32_host "build" "app");
      [reflexivity | discriminate | discriminate | reflexivity].
Defined.

(** C4. For every build directory, target name and configuration the list
    before the suffix step has no duplicate; it has the same entries as the
    candidate list; two entries come in the order of their first occurrences
    among the candidates; and it is the list the specification's scan
    (keep an entry the first time it is seen) produces. *)
Theorem dedup_keeps_first_occurrences (P : Platform) (b t c : string) :
  NoDup (paths_before_suffix P b t c)
  /\ (forall p, In p (paths_before_suffix P b t c)
                <-> In p (candidate_paths P b t c))
  /\ (forall p q,
        index_of p (paths_before_suffix P b t c)
        < index_of q (paths_before_suffix P b t c)
        <-> index_of p (candidate_paths P b t c)
            < index_of q (candidate_paths P b t c))
  /\ paths_before_suffix P b t c = first_seen [] (candidate_paths P b t c).
Proof.
  unfold paths_before_suffix. repeat split.
  - apply NoDup_dedup.
  - apply In_dedup.
  - apply In_dedup.
  - apply index_of_dedup.
  - apply index_of_dedup.
  - apply dedup_first_seen.
Qed.

(** C5, as the specification states it, fails.  The candidates are joins,
    not strings glued with "/": an empty configuration leaves no empty
    component, an absolute configuration drops the build directory, a
    separator at the end of the build directory is not doubled, and on
    Windows the components are joined by a backslash. *)
Lemma first_candidate_is_not_literal :
  hd_error (candidate_paths linux "build" "app" "") = Some "build/app"
  /\ "build/app" <> "build" ++ "/" ++ "" ++ "/" ++ "app"
  /\ hd_error (candidate_paths linux "build" "app" "/tmp") = Some "/tmp/app"
  /\ hd_error (candidate_paths linux "build/" "app" "Debug")
     = Some "build/Debug/app"
  /\ hd_error (candidate_paths win32_host "build" "app" "Debug")
     = Some ("build" ++ NtPath.sep ++ "Debug" ++ NtPath.sep ++ "app").
Proof. repeat split. discriminate. Qed.

(** C5, amended. On a POSIX host, for a non-empty build directory that
    does not end with a separator and a non-empty configuration and target
    name without path separators, the first two candidates, before
    deduplication and platform adjustment, are the strings
    buildDir/config/targetName and buildDir/targetName, in that order. *)
Theorem first_two_candidates (name b t c : string) :
  b <> "" -> PyStr.endswith b "/" = false ->
  c <> "" -> has_sep c = false ->
  t <> "" -> has_sep t = false ->
  firstn 2 (candidate_paths (posix_host name) b t c)
  = [b ++ "/" ++ c ++ "/" ++ t; b ++ "/" ++ t].
Proof.
  intros Hb He Hc Hs _ Ht. rewrite posix_candidates by assumption.
  cbn [firstn]. unfold dir_prefix, PosixPath.sep, PyStr.truthy.
  apply String.eqb_neq in Hb. rewrite Hb, He. cbn [negb orb].
  now rewrite !append_assoc.
Qed.

Lemma first_two_candidates_witness :
  firstn 2 (candidate_paths linux "out/build" "dircat_test" "Debug")
  = ["out/build/Debug/dircat_test"; "out/build/dircat_test"].
Proof.
  apply (@first_two_candidates "linux" "out/build" "dircat_test" "Debug");
    [discriminate | reflexivity | discriminate | reflexivity
     | discriminate | reflexivity].
Defined.

Lemma add_exe_ends_with_exe (p : string) :
  PyStr.endswith (PyStr.lower (add_exe p)) ".exe" = true.
Proof.
  unfold add_exe. destruct (PyStr.endswith (PyStr.lower p) ".exe") eqn:E.
  - exact E.
  - cbn [negb]. rewrite lower_append. apply endswith_append.
Qed.

(** C6. On Windows the result is the deduplicated candidate list with the
    suffix step applied to each entry afterwards, and every entry ends in
    ".exe" up to letter case; an entry that already ends in ".exe" in some
    letter case is left as it is, any other gets ".exe" appended; on any
    other platform the result is the deduplicated list itself. *)
Theorem platform_suffix_behaviour (P : Platform) (b t c : string) :
  (sys_platform P = "win32" ->
     get_executable_paths P b t c
     = map add_exe (dedup (candidate_paths P b t c))
     /\ Forall (fun p => PyStr.endswith (PyStr.lower p) ".exe" = true)
               (get_executable_paths P b t c))
  /\ (forall p, PyStr.endswith (PyStr.lower p) ".exe" = true -> add_exe p = p)
  /\ (forall p, PyStr.endswith (PyStr.lower p) ".exe" = false ->
                add_exe p = p ++ ".exe")
  /\ (sys_platform P <> "win32" ->
        get_executable_paths P b t c = dedup (candidate_paths P b t c)).
Proof.
  unfold get_executable_paths, platform_suffix, paths_before_suffix.
  repeat split.
  - now rewrite H, String.eqb_refl.
  - rewrite H, String.eqb_refl. apply Forall_forall. intros p Hp.
    apply in_map_iff in Hp as [q [<- _]]. apply add_exe_ends_with_exe.
  - intros p H. unfold add_exe. now rewrite H.
  - intros p H. unfold add_exe. now rewrite H.
  - intros H. apply String.eqb_neq in H. now rewrite H.
Qed.

Lemma platform_suffix_behaviour_witness :
  get_executable_paths Hosts.windows "build" "app.EXE" "Release"
  = map add_exe (dedup (candidate_paths Hosts.windows "build" "app.EXE" "Release"))
  /\ add_exe "app.EXE" = "app.EXE"
  /\ add_exe "app" = "app.exe"
  /\ get_executable_paths linux "build" "app" "Release"
     = dedup (candidate_paths linux "build" "app" "Release").
Proof.
  destruct (platform_suffix_behaviour Hosts.windows "build" "app.EXE" "Release")
    as [H1 [H2 [H3 _]]].
  destruct (platform_suffix_behaviour linux "build" "app" "Release")
    as [_ [_ [_ H4]]].
  split; [apply H1; reflexivity|].
  split; [apply H2; reflexivity|].
  split; [apply H3; reflexivity|].
  apply H4. discriminate.
Defined.

Example windows_release_scenario :
  map (fun p => PyStr.endswith (PyStr.lower p) ".exe")
      (get_executable_paths Hosts.windows "build" "app" "Release")
  = [true; true; true; true; true]
  /\ add_exe "build/Release/app.EXE" = "build/Release/app.EXE"
  /\ add_exe "build/Release/app" = "build/Release/app.exe".
Proof. repeat split. Qed.

(** C10, as the specification states it, fails on Windows: a target name
    with a drive in front is not empty and holds no path separator, yet
    [ntpath.join] then drops build directory and configuration, and one
    path is left instead of five. *)
Lemma drive_target_leaves_one_path :
  NtPath.has_sep "C:app" = false
  /\ paths_before_suffix win32_host "build" "C:app" "Debug" = ["C:app"]
  /\ List.length (paths_before_suffix win32_host "build" "C:app" "Debug") <> 5
  /\ ~ In (os_path_join win32_host "build" ["Release"; "app"])
         (paths_before_suffix win32_host "build" "C:app" "Debug").
Proof.
  repeat split; try discriminate.
  cbn. intros [H|[]]. discriminate.
Qed.

(** C10, amended. For every build directory, and target name and
    configuration that are non-empty and free of the path separators of
    the host (and, on Windows, of a drive in front), the list before the
    suffix step contains the flat path and the four conventional paths; it
    has exactly five entries when the configuration is one of the four
    conventional labels and exactly six otherwise; it is never empty.  On
    Windows as on the other platforms. *)
Theorem conventional_layouts_present (P : Platform) (b t c : string) :
  python_host P ->
  t <> "" -> plain_name P t = true -> c <> "" -> plain_name P c = true ->
  In (os_path_join P b [t]) (paths_before_suffix P b t c)
  /\ (forall label, In label common_configs ->
        In (os_path_join P b [label; t]) (paths_before_suffix P b t c))
  /\ (In c common_configs ->
        List.length (paths_before_suffix P b t c) = 5)
  /\ (~ In c common_configs ->
        List.length (paths_before_suffix P b t c) = 6)
  /\ paths_before_suffix P b t c <> [].
Proof.
  intros HP Ht Hpt Hc Hpc.
  assert (Hflat : In (os_path_join P b [t]) (paths_before_suffix P b t c)).
  { apply In_dedup. unfold candidate_paths. cbn [app In]. now right; left. }
  split; [exact Hflat|]. split; [|split; [|split]].
  - intros label Hl. apply In_dedup. unfold candidate_paths.
    apply in_or_app. right.
    apply (in_map (fun conf => os_path_join P b [conf; t])).
    exact Hl.
  - intros Hin. unfold paths_before_suffix.
    rewrite host_candidates by assumption.
    apply (@dedup_conventional_config
             (fun conf => host_prefix P b ++ conf ++ host_sep P ++ t)
             (host_prefix P b ++ t));
      [intros x y; apply layout_inj_sep
      | intros x; apply layout_not_flat_sep, host_sep_not_empty | exact Hin].
  - intros Hout. unfold paths_before_suffix.
    rewrite host_candidates by assumption.
    rewrite (@dedup_other_config
               (fun conf => host_prefix P b ++ conf ++ host_sep P ++ t)
               (host_prefix P b ++ t));
      [reflexivity | intros x y; apply layout_inj_sep
       | intros x; apply layout_not_flat_sep, host_sep_not_empty | exact Hout].
  - intros E. rewrite E in Hflat. exact Hflat.
Qed.

Lemma conventional_layouts_present_witness :
  In "build/app" (paths_before_suffix linux "build" "app" "Release")
  /\ In "build/MinSizeRel/app" (paths_before_suffix linux "build" "app" "Release")
  /\ List.length (paths_before_suffix linux "build" "app" "Release") = 5
  /\ List.length (paths_before_suffix linux "build" "app" "Nightly") = 6
  /\ List.length (paths_before_suffix win32_host "build" "app" "Release") = 5
  /\ List.length (paths_before_suffix win32_host "build" "app" "Nightly") = 6.
Proof.
  destruct (@conventional_layouts_present linux "build" "app" "Release")
    as [H1 [H2 [H3 _]]];
    [reflexivity | discriminate | reflexivity | discriminate | reflexivity |].
  destruct (@conventional_layouts_present linux "build" "app" "Nightly")
    as [_ [_ [_ [H4 _]]]];
    [reflexivity | discriminate | reflexivity | discriminate | reflexivity |].
  destruct (@conventional_layouts_present win32_host "build" "app" "Release")
    as [_ [_ [H5 _]]];
    [reflexivity | discriminate | reflexivity | discriminate | reflexivity |].
  destruct (@conventional_layouts_present win32_host "build" "app" "Nightly")
    as [_ [_ [_ [H6 _]]]];
    [reflexivity | discriminate | reflexivity | discriminate | reflexivity |].
  split; [exact H1|].
  split; [apply (H2 "MinSizeRel"); cbn [common_configs In]; tauto|].
  split; [apply H3; cbn [common_configs In]; tauto|].
  split; [apply H4; cbn [common_configs In]; intuition discriminate|].
  split; [apply H5; cbn [common_configs In]; tauto|].
  apply H6. cbn [common_configs In]. intuition discriminate.
Defined.

(** ** release.py: the claims *)




Example delete_runs :
  Release.run (Hosts.all_ok []) (Release.delete_args "v1.0.0") tt
  = (0%Z, [{| Py.argv := ["git"; "push"; "--delete"; "origin"; "v1.0.0"];
              Py.cwd := None; Py.outcome := inr {| Py.returncode := 0; Py.stdout := Py.Text "main"; Py.stderr := Py.Text "" |} |};
           {| Py.argv := ["git"; "tag"; "--delete"; "v1.0.0"];
              Py.cwd := None; Py.outcome := inr {| Py.returncode := 0; Py.stdout := Py.Text "main"; Py.stderr := Py.Text "" |} |}])
  /\ fst (Release.run (Hosts.failing (Release.delete_local_cmd "v1.0.0"))
                      (Release.delete_args "v1.0.0") tt) = 1%Z.
Proof. split; reflexivity. Qed.

(** C7, as the specification states it, fails: when the branch lookup
    ([git rev-parse]) exits with a non-zero status and the other commands
    succeed, a step has failed and the exit status is zero. *)
Lemma create_survives_failed_lookup :
  existsb Py.failed
    (snd (Release.run (Hosts.failing Release.rev_parse_cmd)
                      (Release.create_args "v1.0.0" None true) tt)) = true
  /\ fst (Release.run (Hosts.failing Release.rev_parse_cmd)
                      (Release.create_args "v1.0.0" None true) tt) = 0%Z
  /\ map Py.argv
       (snd (Release.run (Hosts.failing Release.rev_parse_cmd)
                         (Release.create_args "v1.0.0" None true) tt))
     = [Release.rev_parse_cmd;
        Release.tag_cmd "v1.0.0" "Release v1.0.0";
        Release.push_tag_cmd "v1.0.0"].
Proof. repeat split. Qed.

(** C7, amended. In a tag creation, if a command fails, other than the
    branch lookup exiting with a non-zero status (which only skips the push
    of the commits), the exit status is not zero.  When no message is
    supplied every [git tag -a] command run carries the message
    "Release <tag_name>", and a zero exit status means that this command
    and the push of the tag ran and succeeded. *)
Theorem create_tag_outcome
  (W : Type) (os : Py.OS W) (w : W) (tag : string) (msg : option string)
  (push : bool) :
  (forall c, In c (snd (Release.run os (Release.create_args tag msg push) w)) ->
     Py.failed c = true -> Release.lookup_exited_nonzero c = false ->
     fst (Release.run os (Release.create_args tag msg push) w) <> 0%Z)
  /\ (msg = None ->
      forall c, In c (snd (Release.run os (Release.create_args tag msg push) w)) ->
        Release.is_tag_cmd (Py.argv c) = true ->
        Py.argv c = Release.tag_cmd tag ("Release " ++ tag))
  /\ (msg = None ->
      fst (Release.run os (Release.create_args tag msg push) w) = 0%Z ->
      exists c1 c2 pre,
        snd (Release.run os (Release.create_args tag msg push) w)
        = (pre ++ [c1; c2])%list
        /\ Py.argv c1 = Release.tag_cmd tag ("Release " ++ tag)
        /\ Py.argv c2 = Release.push_tag_cmd tag
        /\ Py.succeeded c1 = true /\ Py.succeeded c2 = true).
Proof.
  unfold_script. destruct push, msg as [m|]; host_cases.
  all: trace_facts.
  all: last_two; cbn; repeat split; assumption.
Qed.

Lemma create_tag_outcome_witness :
  fst (Release.run (Hosts.failing (Release.tag_cmd "v1.0.0" "Release v1.0.0"))
                   (Release.create_args "v1.0.0" None true) tt) <> 0%Z
  /\ exists c1 c2 pre,
       snd (Release.run (Hosts.all_ok []) (Release.create_args "v1.0.0" None true) tt)
       = (pre ++ [c1; c2])%list
       /\ Py.argv c1 = Release.tag_cmd "v1.0.0" "Release v1.0.0"
       /\ Py.argv c2 = Release.push_tag_cmd "v1.0.0"
       /\ Py.succeeded c1 = true /\ Py.succeeded c2 = true.
Proof.
  split.
  - destruct (create_tag_outcome
                (Hosts.failing (Release.tag_cmd "v1.0.0" "Release v1.0.0"))
                tt "v1.0.0" None true) as [H _].
    apply (H {| Py.argv := Release.tag_cmd "v1.0.0" "Release v1.0.0";
                Py.cwd := None;
                Py.outcome := inr {| Py.returncode := 128; Py.stdout := Py.Text "main";
                                     Py.stderr := Py.Text "" |} |});
      [right; right; left; reflexivity | reflexivity | reflexivity].
  - destruct (create_tag_outcome (Hosts.all_ok []) tt "v1.0.0" None true)
      as [_ [_ H]].
    apply H; reflexivity.
Defined.


(** ** build-test.py: the executable that is run *)

Section Locate.
Context {W : Type} (os : Py.OS W).

Lemma get_executable_paths_not_empty (P : Platform) (b t c : string) :
  get_executable_paths P b t c <> [].
Proof.
  unfold get_executable_paths, platform_suffix, paths_before_suffix,
    candidate_paths.
  cbn [app]. rewrite dedup_cons.
  destruct (sys_platform P =? "win32")%string; discriminate.
Qed.

(** Probing changes nothing, and returns the first path that exists, or
    the default when none does. *)
Lemma next_existing_spec (default : string) (st : Py.State W) (l : list string) :
  exists p,
    BuildTest.next_existing os l default st = (Py.Ret p, st)
    /\ ((exists l1 l2, l = (l1 ++ p :: l2)%list
                       /\ Py.path_exists os p (Py.world st) = true
                       /\ forall q, In q l1 ->
                                    Py.path_exists os q (Py.world st) = false)
        \/ ((forall q, In q l -> Py.path_exists os q (Py.world st) = false)
            /\ p = default)).
Proof.
  induction l as [|x l IH].
  - exists default. split; [reflexivity|]. right. split; [intros q []|reflexivity].
  - cbn [BuildTest.next_existing]. unfold Py.bind, Py.os_path_exists, Py.ret.
    destruct (Py.path_exists os x (Py.world st)) eqn:E.
    + exists x. split; [reflexivity|]. left. exists [], l.
      repeat split; [exact E | intros q []].
    + destruct IH as [p [Hrun Hp]]. exists p. split; [exact Hrun|].
      destruct Hp as [[l1 [l2 [Hl [Hex Hno]]]] | [Hno Hd]].
      * left. exists (x :: l1), l2. subst l. repeat split; [exact Hex|].
        intros q [<-|Hq]; [exact E | now apply Hno].
      * right. split; [|exact Hd].
        intros q [<-|Hq]; [exact E | now apply Hno].
Qed.

End Locate.

(** C9. When configuration and build succeed, the path that is executed is
    the first entry of the resolver's list that exists in the file system
    left by the build, or the first entry of the list when none exists; it
    is the one command started after the build. *)
Theorem chosen_executable
  (W : Type) (os : Py.OS W) (P : Platform) (b t : string)
  (g : option string) (c : string) (clean : bool) (st st' : Py.State W) :
  BuildTest.configure_and_build os b t g c clean st = (Py.Ret tt, st') ->
  exists exec_path,
    first_existing_or_first
      (fun p => Py.path_exists os p (Py.world st'))
      (get_executable_paths P b t c) exec_path
    /\ BuildTest.locate_executable os P b t c st'
       = (Py.Ret (get_executable_paths P b t c, exec_path), st')
    /\ BuildTest.run_cmake_build_and_execute os P b t g c clean st
       = BuildTest.execute os exec_path st'
    /\ exists o,
         Py.calls (snd (BuildTest.run_cmake_build_and_execute os P b t g c clean st))
         = (Py.calls st' ++ [{| Py.argv := [exec_path]; Py.cwd := None;
                                Py.outcome := o |}])%list.
Proof.
  intros Hbuild.
  destruct (get_executable_paths P b t c) as [|first rest] eqn:El;
    [now apply get_executable_paths_not_empty in El|].
  destruct (next_existing_spec os first st' (first :: rest)) as [p [Hrun Hp]].
  assert (Hloc : BuildTest.locate_executable os P b t c st'
                 = (Py.Ret (first :: rest, p), st')).
  { unfold BuildTest.locate_executable. rewrite El. unfold Py.bind.
    now rewrite Hrun. }
  assert (Hall : BuildTest.run_cmake_build_and_execute os P b t g c clean st
                 = BuildTest.execute os p st').
  { unfold BuildTest.run_cmake_build_and_execute.
    unfold Py.bind at 1. rewrite Hbuild.
    unfold Py.bind at 1. now rewrite Hloc. }
  exists p. split; [|split; [exact Hloc | split; [exact Hall|]]].
  - destruct Hp as [Hfound | [Hno ->]]; [now left|].
    right. split; [exact Hno | now exists rest].
  - rewrite Hall. unfold BuildTest.execute, Py.try_except, Py.bind,
      Py.subprocess_run, Py.decode, Py.sys_exit, Py.raise, Py.ret.
    destruct (Py.spawn os [p] None (Py.world st')) as [[e|cp] w'].
    + exists (inl e). now destruct e.
    + exists (inr cp).
      destruct (Py.returncode cp =? 0)%Z, (Py.stdout cp);
        try destruct (Py.stderr cp); reflexivity.
Qed.

Lemma chosen_executable_witness :
  exists exec_path,
    first_existing_or_first
      (fun p => Py.path_exists (Hosts.all_ok ["build/app"]) p tt)
      (get_executable_paths linux "build" "app" "Debug") exec_path
    /\ map Py.argv
         (Py.calls (snd (BuildTest.run_cmake_build_and_execute
                           (Hosts.all_ok ["build/app"]) linux
                           "build" "app" None "Debug" false
                           {| Py.world := tt; Py.calls := [] |})))
       = [["cmake"; "."];
          ["cmake"; "--build"; "build"; "--config"; "Debug"; "--target"; "app"];
          [exec_path]].
Proof.
  destruct (@chosen_executable unit (Hosts.all_ok ["build/app"]) linux
              "build" "app" None "Debug" false
              {| Py.world := tt; Py.calls := [] |}
              (snd (BuildTest.configure_and_build (Hosts.all_ok ["build/app"])
                      "build" "app" None "Debug" false
                      {| Py.world := tt; Py.calls := [] |})))
    as [p [Hp [_ [_ [o Ho]]]]]; [reflexivity|].
  exists p. split; [exact Hp|].
  rewrite Ho. reflexivity.
Defined.

Example existing_flat_layout_is_run :
  map Py.argv
    (Py.calls (snd (BuildTest.run_cmake_build_and_execute
                      (Hosts.all_ok ["build/MinSizeRel/app"; "build/app"]) linux
                      "build" "app" (Some "Ninja") "Debug" true
                      {| Py.world := tt; Py.calls := [] |})))
  = [["cmake"; "."; "-G"; "Ninja"];
     ["cmake"; "--build"; "build"; "--config"; "Debug"; "--target"; "app"];
     ["build/app"]].
Proof. reflexivity. Qed.

Example nothing_exists_first_is_run :
  map Py.argv
    (Py.calls (snd (BuildTest.run_cmake_build_and_execute
                      (Hosts.all_ok []) linux
                      "build" "app" None "Release" false
                      {| Py.world := tt; Py.calls := [] |})))
  = [["cmake"; "."];
     ["cmake"; "--build"; "build"; "--config"; "Release"; "--target"; "app"];
     ["build/Release/app"]].
Proof. reflexivity. Qed.

(** * Further properties of the scripts *)

(** ** [get_executable_paths] on every platform *)

Lemma length_dedup_le (l : list string) :
  (List.length (dedup l) <= List.length l)%nat.
Proof.
  induction l as [|x l IH]; [reflexivity|].
  rewrite dedup_cons. cbn [List.length].
  pose proof (filter_length_le (differs x) (dedup l)). lia.
Qed.

Lemma platform_suffix_length (P : Platform) (l : list string) :
  List.length (platform_suffix P l) = List.length l.
Proof.
  unfold platform_suffix.
  destruct (sys_platform P =? "win32"); [apply length_map | reflexivity].
Qed.

(** X1. Whatever the platform and the arguments, the resolver returns at
    least one and at most six paths. *)
Theorem executable_paths_count (P : Platform) (b t c : string) :
  (1 <= List.length (get_executable_paths P b t c) <= 6)%nat.
Proof.
  unfold get_executable_paths, paths_before_suffix.
  rewrite platform_suffix_length.
  pose proof (length_dedup_le (candidate_paths P b t c)) as Hle.
  unfold candidate_paths in *. cbn [app List.length map common_configs] in *.
  rewrite dedup_cons in *. cbn [List.length] in *. lia.
Qed.

(** X2. The first path returned is always the per-configuration layout,
    the join of build directory, configuration and target name: as it is
    on a platform other than Windows, and through the suffix step on
    Windows. *)
Theorem first_entry_is_config_layout (P : Platform) (b t c : string) :
  (sys_platform P <> "win32" ->
     hd_error (get_executable_paths P b t c)
     = Some (os_path_join P b [c; t]))
  /\ (sys_platform P = "win32" ->
        hd_error (get_executable_paths P b t c)
        = Some (add_exe (os_path_join P b [c; t]))).
Proof.
  unfold get_executable_paths, paths_before_suffix, platform_suffix,
    candidate_paths.
  cbn [app]. rewrite dedup_cons. split; intros H.
  - apply String.eqb_neq in H. now rewrite H.
  - now rewrite H, String.eqb_refl.
Qed.

Lemma first_entry_is_config_layout_witness :
  hd_error (get_executable_paths linux "build" "app" "Nightly")
  = Some "build/Nightly/app"
  /\ hd_error (get_executable_paths Hosts.windows "build" "app" "Nightly")
     = Some (add_exe (os_path_join Hosts.windows "build" ["Nightly"; "app"])).
Proof.
  split.
  - destruct (first_entry_is_config_layout linux "build" "app" "Nightly")
      as [H _].
    apply H. discriminate.
  - destruct (first_entry_is_config_layout Hosts.windows "build" "app" "Nightly")
      as [_ H].
    apply H. reflexivity.
Defined.

(** X3. On Windows the paths returned are exactly the candidates with the
    suffix step applied: every path returned comes from a candidate, and
    every candidate is returned in its adjusted form. *)
Theorem windows_paths_are_adjusted_candidates (P : Platform) (b t c p : string) :
  sys_platform P = "win32" ->
  (In p (get_executable_paths P b t c)
   <-> exists q, In q (candidate_paths P b t c) /\ p = add_exe q).
Proof.
  intros H. unfold get_executable_paths, platform_suffix, paths_before_suffix.
  rewrite H, String.eqb_refl, in_map_iff. split.
  - intros [q [E Hq]]. exists q. split; [now apply In_dedup | now rewrite E].
  - intros [q [Hq E]]. exists q. split; [now rewrite E | now apply In_dedup].
Qed.

Lemma windows_paths_are_adjusted_candidates_witness :
  In (add_exe (os_path_join Hosts.windows "build" ["app"]))
     (get_executable_paths Hosts.windows "build" "app" "Debug").
Proof.
  apply (windows_paths_are_adjusted_candidates Hosts.windows "build" "app" "Debug");
    [reflexivity|].
  exists (os_path_join Hosts.windows "build" ["app"]).
  split; [right; left; reflexivity | reflexivity].
Defined.

Lemma add_exe_idempotent (p : string) : add_exe (add_exe p) = add_exe p.
Proof.
  unfold add_exe at 1. now rewrite add_exe_ends_with_exe.
Qed.

(** X4. The platform step is idempotent: adjusted paths are left alone by
    a second adjustment, so no path gets the suffix twice. *)
Theorem platform_suffix_idempotent (P : Platform) (l : list string) :
  platform_suffix P (platform_suffix P l) = platform_suffix P l.
Proof.
  unfold platform_suffix.
  destruct (sys_platform P =? "win32"); [|reflexivity].
  rewrite map_map. apply map_ext. intros p. apply add_exe_idempotent.
Qed.

(** X5. Deduplication never lengthens a list, changes nothing in a list
    that it has already deduplicated, and keeps the first entry of a list
    in front. *)
Theorem dedup_shrinks_and_settles (l : list string) :
  (List.length (dedup l) <= List.length l)%nat
  /\ dedup (dedup l) = dedup l
  /\ hd_error (dedup l) = hd_error l.
Proof.
  split; [apply length_dedup_le|]. split.
  - apply dedup_NoDup_id, NoDup_dedup.
  - destruct l as [|x l]; [reflexivity|]. now rewrite dedup_cons.
Qed.

(** ** Degenerate arguments on a POSIX host *)

Lemma posix_join_absolute_target (b t c : string) :
  PyStr.startswith t PosixPath.sep = true ->
  PosixPath.join b [c; t] = t /\ PosixPath.join b [t] = t.
Proof.
  intros H. unfold PosixPath.join. cbn [fold_left].
  unfold PosixPath.join_step at 1 3. now rewrite H.
Qed.

Lemma dedup_same_six (t : string) : dedup [t; t; t; t; t; t] = [t].
Proof.
  rewrite !dedup_cons, dedup_nil. cbn [filter].
  now rewrite !differs_same.
Qed.

(** X6. On a POSIX host an absolute target name (one that starts with the
    separator) makes the join drop build directory and configuration: all
    six candidates are the target name itself and the resolver returns that
    single path. *)
Theorem absolute_target_is_only_path (name b t c : string) :
  name <> "win32" ->
  PyStr.startswith t PosixPath.sep = true ->
  get_executable_paths (posix_host name) b t c = [t].
Proof.
  intros Hn Ht.
  unfold get_executable_paths, platform_suffix, paths_before_suffix,
    candidate_paths.
  cbn [posix_host sys_platform os_path_join map common_configs app].
  apply String.eqb_neq in Hn. rewrite Hn.
  rewrite (proj2 (posix_join_absolute_target b t c Ht)).
  rewrite (proj1 (posix_join_absolute_target b t c Ht)).
  rewrite (proj1 (posix_join_absolute_target b t "Debug" Ht)).
  rewrite (proj1 (posix_join_absolute_target b t "Release" Ht)).
  rewrite (proj1 (posix_join_absolute_target b t "RelWithDebInfo" Ht)).
  rewrite (proj1 (posix_join_absolute_target b t "MinSizeRel" Ht)).
  apply dedup_same_six.
Qed.

Lemma absolute_target_is_only_path_witness :
  get_executable_paths linux "build" "/opt/bin/app" "Debug" = ["/opt/bin/app"].
Proof.
  apply (@absolute_target_is_only_path "linux" "build" "/opt/bin/app" "Debug");
    [discriminate | reflexivity].
Defined.

Lemma dir_prefix_closed (b : string) :
  negb (PyStr.truthy (dir_prefix b))
  || PyStr.endswith (dir_prefix b) PosixPath.sep = true.
Proof.
  unfold dir_prefix.
  destruct (negb (PyStr.truthy b) || PyStr.endswith b PosixPath.sep) eqn:E;
    [exact E|].
  rewrite endswith_append. apply orb_true_r.
Qed.

Lemma join_step_empty (b : string) : PosixPath.join_step b "" = dir_prefix b.
Proof.
  unfold PosixPath.join_step, dir_prefix.
  change (PyStr.startswith "" PosixPath.sep) with false. cbv iota.
  destruct (negb (PyStr.truthy b) || PyStr.endswith b PosixPath.sep);
    [apply append_empty_r | reflexivity].
Qed.

Lemma posix_join_empty_config (b t : string) :
  has_sep t = false -> PosixPath.join b [""; t] = dir_prefix b ++ t.
Proof.
  intros Ht.
  change (PosixPath.join b [""; t])
    with (PosixPath.join_step (PosixPath.join_step b "") t).
  rewrite join_step_empty. unfold PosixPath.join_step.
  now rewrite (no_sep_startswith _ Ht), dir_prefix_closed.
Qed.

(** X7. On a POSIX host an empty configuration makes the per-configuration
    candidate coincide with the flat one: the list before the suffix step
    is the flat path followed by the four conventional paths, five entries
    in all (target name without separators). *)
Theorem empty_config_collapses_to_flat (name b t : string) :
  has_sep t = false ->
  paths_before_suffix (posix_host name) b t ""
  = (os_path_join (posix_host name) b [t]
     :: map (fun conf => os_path_join (posix_host name) b [conf; t])
            common_configs)%list.
Proof.
  intros Ht. unfold paths_before_suffix, candidate_paths.
  cbn [posix_host os_path_join app].
  rewrite posix_join_empty_config, posix_join1 by assumption.
  rewrite (map_ext_in _ (fun conf => dir_prefix b ++ conf ++ "/" ++ t)).
  - apply (dedup_repeated_head (dir_prefix b ++ t) []).
    apply (@conventional_NoDup
             (fun conf => dir_prefix b ++ conf ++ "/" ++ t) (dir_prefix b ++ t)).
    + intros x y. apply layout_inj.
    + intros x. apply layout_not_flat.
  - intros conf Hin. destruct (common_configs_wf Hin) as [H1 H2].
    now apply posix_join2.
Qed.

Lemma empty_config_collapses_to_flat_witness :
  paths_before_suffix linux "build" "app" ""
  = ["build/app"; "build/Debug/app"; "build/Release/app";
     "build/RelWithDebInfo/app"; "build/MinSizeRel/app"].
Proof.
  apply (@empty_config_collapses_to_flat "linux" "build" "app"). reflexivity.
Defined.

(** ** build-test.py: the run as a whole *)

Section BuildRunFacts.
Context {W : Type} (os : Py.OS W) (P : Platform).
Variables (b t : string) (g : option string) (c : string).

Lemma configure_and_build_cases (clean : bool) (w : W) :
  (exists e st',
      BuildTest.configure_and_build os b t g c clean
        {| Py.world := w; Py.calls := [] |} = (Py.Raise e, st')
      /\ Py.exit_status (A := unit) (Py.Raise e) = 1%Z
      /\ ((Py.calls st' = [] /\ exists err w', Py.makedirs os b (if clean then Py.rmtree os b w else w)
                                 = (Some err, w'))
          \/ (exists c1, Py.calls st' = [c1]
                /\ BuildRun.invocation c1 = (BuildRun.cmake_cmd g, Some b)
                /\ Py.failed c1 = true)
          \/ (exists c1 c2, Py.calls st' = [c1; c2]
                /\ BuildRun.invocation c1 = (BuildRun.cmake_cmd g, Some b)
                /\ Py.succeeded c1 = true
                /\ BuildRun.invocation c2 = (BuildRun.build_cmd b t c, None)
                /\ Py.failed c2 = true)))
  \/ (exists st' c1 c2,
        BuildTest.configure_and_build os b t g c clean
          {| Py.world := w; Py.calls := [] |} = (Py.Ret tt, st')
        /\ Py.calls st' = [c1; c2]
        /\ BuildRun.invocation c1 = (BuildRun.cmake_cmd g, Some b)
        /\ Py.succeeded c1 = true
        /\ BuildRun.invocation c2 = (BuildRun.build_cmd b t c, None)
        /\ Py.succeeded c2 = true).
Proof.
  unfold BuildTest.configure_and_build, BuildTest.report_stderr, Py.bind,
    Py.try_except, Py.subprocess_run, Py.os_makedirs, Py.shutil_rmtree,
    Py.decode, Py.ret, Py.sys_exit, Py.raise.
  fold (BuildRun.cmake_cmd g) (BuildRun.build_cmd b t c).
  destruct clean; cbn [Py.world Py.calls].
  all: match goal with
       | |- context [Py.makedirs os b ?x] =>
           destruct (Py.makedirs os b x) as [[err|] w1] eqn:Em
       end.
  all: try solve [left; eexists; eexists; split; [reflexivity|];
                  split; [now destruct err|]; left; split; [reflexivity|];
                  now exists err, w1].
  all: cbn [Py.world Py.calls app];
    destruct (Py.spawn os (BuildRun.cmake_cmd g) (Some b) w1)
      as [[e1|cp1] w2] eqn:E1;
    [destruct e1 | destruct (Py.returncode cp1 =? 0)%Z eqn:R1].
  all: try solve [left; eexists; eexists; split; [reflexivity|];
                  split; [reflexivity|]; right; left;
                  eexists; repeat split; reflexivity].
  all: try solve [destruct (Py.bytes_truthy (Py.stderr cp1));
                  [destruct (Py.stderr cp1)|];
                  (left; eexists; eexists; split; [reflexivity|];
                   split; [reflexivity|]; right; left;
                   eexists; repeat split; try reflexivity; status_goal)].
  all: cbn [Py.world Py.calls app];
    destruct (Py.spawn os (BuildRun.build_cmd b t c) None w2)
      as [[e2|cp2] w3] eqn:E2;
    [destruct e2 | destruct (Py.returncode cp2 =? 0)%Z eqn:R2].
  all: try solve [left; eexists; eexists; split; [reflexivity|];
                  split; [reflexivity|]; right; right;
                  eexists; eexists; repeat split; try reflexivity;
                  status_goal].
  all: try solve [right; eexists; eexists; eexists; repeat split;
                  try reflexivity; status_goal].
  all: destruct (Py.bytes_truthy (Py.stderr cp2));
    [destruct (Py.stderr cp2)|];
    (left; eexists; eexists; split; [reflexivity|];
     split; [reflexivity|]; right; right;
     eexists; eexists; repeat split; try reflexivity; status_goal).
Qed.

Lemma locate_spec (st : Py.State W) :
  exists p,
    BuildTest.locate_executable os P b t c st
    = (Py.Ret (get_executable_paths P b t c, p), st)
    /\ In p (get_executable_paths P b t c).
Proof.
  unfold BuildTest.locate_executable.
  destruct (get_executable_paths P b t c) as [|first rest] eqn:El;
    [now apply get_executable_paths_not_empty in El|].
  destruct (next_existing_spec os first st (first :: rest)) as [p [Hrun Hp]].
  exists p. unfold Py.bind. rewrite Hrun. split; [reflexivity|].
  destruct Hp as [[l1 [l2 [E _]]] | [_ ->]]; [|now left].
  rewrite E. apply in_or_app. right. now left.
Qed.

Lemma execute_spec (p : string) (st : Py.State W) :
  exists o r st',
    BuildTest.execute os p st = (r, st')
    /\ Py.calls st'
       = (Py.calls st ++ [{| Py.argv := [p]; Py.cwd := None; Py.outcome := o |}])%list
    /\ Py.exit_status r
       = if Py.succeeded {| Py.argv := [p]; Py.cwd := None; Py.outcome := o |}
            && Py.stdout_decodes
                 {| Py.argv := [p]; Py.cwd := None; Py.outcome := o |}
         then 0%Z else 1%Z.
Proof.
  unfold BuildTest.execute, Py.try_except, Py.bind, Py.subprocess_run,
    Py.decode, Py.sys_exit, Py.raise, Py.ret, Py.succeeded, Py.stdout_decodes.
  destruct (Py.spawn os [p] None (Py.world st)) as [[e|cp] w'].
  - exists (inl e). destruct e; eexists; eexists; repeat split.
  - exists (inr cp). cbn [Py.outcome].
    destruct (Py.returncode cp =? 0)%Z, (Py.stdout cp);
      try destruct (Py.stderr cp); eexists; eexists; repeat split.
Qed.

(** Every run of the build script has one of four shapes. *)
Lemma build_run_cases (clean : bool) (w : W) :
  (BuildRun.run os P b t g c clean w = (1%Z, [])
   /\ exists err w', Py.makedirs os b (if clean then Py.rmtree os b w else w)
                     = (Some err, w'))
  \/ (exists c1,
        BuildRun.run os P b t g c clean w = (1%Z, [c1])
        /\ BuildRun.invocation c1 = (BuildRun.cmake_cmd g, Some b)
        /\ Py.failed c1 = true)
  \/ (exists c1 c2,
        BuildRun.run os P b t g c clean w = (1%Z, [c1; c2])
        /\ BuildRun.invocation c1 = (BuildRun.cmake_cmd g, Some b)
        /\ Py.succeeded c1 = true
        /\ BuildRun.invocation c2 = (BuildRun.build_cmd b t c, None)
        /\ Py.failed c2 = true)
  \/ (exists c1 c2 c3 p,
        BuildRun.run os P b t g c clean w
        = ((if Py.succeeded c3 && Py.stdout_decodes c3 then 0%Z else 1%Z),
           [c1; c2; c3])
        /\ BuildRun.invocation c1 = (BuildRun.cmake_cmd g, Some b)
        /\ Py.succeeded c1 = true
        /\ BuildRun.invocation c2 = (BuildRun.build_cmd b t c, None)
        /\ Py.succeeded c2 = true
        /\ BuildRun.invocation c3 = ([p], None)
        /\ In p (get_executable_paths P b t c)).
Proof.
  destruct (configure_and_build_cases clean w)
    as [[e [st' [Hrun [Hex Hshape]]]] | [st' [c1 [c2 [Hrun Hrest]]]]].
  - assert (E : BuildRun.run os P b t g c clean w = (1%Z, Py.calls st')).
    { unfold BuildRun.run, BuildTest.run_cmake_build_and_execute.
      unfold Py.bind at 1. rewrite Hrun. now rewrite Hex. }
    rewrite E.
    destruct Hshape as [[Hc Hm] | [[c1 [Hc Hr]] | [c1 [c2 [Hc Hr]]]]];
      rewrite Hc.
    + left. now split.
    + right; left. now exists c1.
    + right; right; left. now exists c1, c2.
  - right; right; right.
    destruct (locate_spec st') as [p [Hloc Hin]].
    destruct (execute_spec p st') as [o [r [st'' [Hexe [Hcalls Hstatus]]]]].
    destruct Hrest as [Hc Hr].
    exists c1, c2, {| Py.argv := [p]; Py.cwd := None; Py.outcome := o |}, p.
    split; [|repeat split; try apply Hr; exact Hin].
    unfold BuildRun.run, BuildTest.run_cmake_build_and_execute.
    unfold Py.bind at 1. rewrite Hrun.
    unfold Py.bind at 1. rewrite Hloc. cbn [snd].
    now rewrite Hexe, Hstatus, Hcalls, Hc.
Qed.

End BuildRunFacts.

(** X8. The build script starts its commands in one order: the configure
    command in the build directory, then the build command, then one
    executable, which is always one of the paths of the resolver.  A run
    stops anywhere in that sequence, and starts nothing else. *)
Theorem build_commands_in_order
  (W : Type) (os : Py.OS W) (P : Platform) (b t : string)
  (g : option string) (c : string) (clean : bool) (w : W) :
  exists n p,
    In p (get_executable_paths P b t c)
    /\ map BuildRun.invocation (snd (BuildRun.run os P b t g c clean w))
       = firstn n [(BuildRun.cmake_cmd g, Some b);
                   (BuildRun.build_cmd b t c, None);
                   ([p], None)].
Proof.
  destruct (get_executable_paths P b t c) as [|first rest] eqn:El;
    [now apply get_executable_paths_not_empty in El|].
  rewrite <- El.
  assert (Hfirst : In first (get_executable_paths P b t c))
    by (rewrite El; now left).
  destruct (build_run_cases os P b t g c clean w)
    as [[E _] | [[c1 [E [H1 _]]] | [[c1 [c2 [E [H1 [_ [H2 _]]]]]]
        | [c1 [c2 [c3 [p [E [H1 [_ [H2 [_ [H3 Hin]]]]]]]]]]]]];
    rewrite E; cbn [snd map].
  - exists 0%nat, first. now split.
  - exists 1%nat, first. split; [exact Hfirst|]. now rewrite H1.
  - exists 2%nat, first. split; [exact Hfirst|]. now rewrite H1, H2.
  - exists 3%nat, p. split; [exact Hin|]. now rewrite H1, H2, H3.
Qed.

(** X9. The build script stops at the first command that fails: a command
    that failed (it exited with a non-zero status or could not be started)
    is the last one started, and the exit status is then 1. *)
Theorem build_stops_at_first_failure
  (W : Type) (os : Py.OS W) (P : Platform) (b t : string)
  (g : option string) (c : string) (clean : bool) (w : W) (call : Py.Call) :
  In call (snd (BuildRun.run os P b t g c clean w)) ->
  Py.failed call = true ->
  fst (BuildRun.run os P b t g c clean w) = 1%Z
  /\ exists earlier,
       snd (BuildRun.run os P b t g c clean w) = (earlier ++ [call])%list
       /\ forallb Py.succeeded earlier = true.
Proof.
  unfold Py.failed.
  destruct (build_run_cases os P b t g c clean w)
    as [[E _] | [[c1 [E [_ F1]]] | [[c1 [c2 [E [_ [S1 [_ F2]]]]]]
        | [c1 [c2 [c3 [p [E [_ [S1 [_ [S2 _]]]]]]]]]]]];
    rewrite E; cbn [fst snd In]; intros Hin Hf.
  - contradiction.
  - destruct Hin as [<-|[]]. split; [reflexivity|]. now exists [].
  - destruct Hin as [<-|[<-|[]]].
    + rewrite S1 in Hf. discriminate.
    + split; [reflexivity|]. exists [c1]. cbn. now rewrite S1.
  - destruct Hin as [<-|[<-|[<-|[]]]].
    + rewrite S1 in Hf. discriminate.
    + rewrite S2 in Hf. discriminate.
    + apply negb_true_iff in Hf. rewrite Hf. split; [reflexivity|].
      exists [c1; c2]. cbn. now rewrite S1, S2.
Qed.

Lemma build_stops_at_first_failure_witness :
  fst (BuildRun.run
         (Hosts.failing (BuildRun.build_cmd "build" "app" "Debug")) linux
         "build" "app" None "Debug" false tt) = 1%Z
  /\ List.length
       (snd (BuildRun.run
               (Hosts.failing (BuildRun.build_cmd "build" "app" "Debug")) linux
               "build" "app" None "Debug" false tt)) = 2%nat.
Proof.
  destruct (@build_stops_at_first_failure unit
              (Hosts.failing (BuildRun.build_cmd "build" "app" "Debug")) linux
              "build" "app" None "Debug" false tt
              {| Py.argv := BuildRun.build_cmd "build" "app" "Debug";
                 Py.cwd := None;
                 Py.outcome := inr {| Py.returncode := 128; Py.stdout := Py.Text "main";
                                      Py.stderr := Py.Text "" |} |})
    as [H1 [earlier [H2 _]]];
    [right; left; reflexivity | reflexivity |].
  split; [exact H1 | reflexivity].
Defined.



(** X11. When the build directory cannot be created, the build script ends
    with exit status 1 without having started any command. *)
Theorem build_directory_failure_starts_nothing
  (W : Type) (os : Py.OS W) (P : Platform) (b t : string)
  (g : option string) (c : string) (clean : bool) (w w' : W) (err : Py.OSErr) :
  Py.makedirs os b (if clean then Py.rmtree os b w else w) = (Some err, w') ->
  BuildRun.run os P b t g c clean w = (1%Z, []).
Proof.
  intros H.
  unfold BuildRun.run, BuildTest.run_cmake_build_and_execute,
    BuildTest.configure_and_build.
  unfold Py.bind at 1 2 3 4. unfold Py.os_makedirs, Py.shutil_rmtree, Py.ret.
  destruct clean; cbn [Py.world Py.calls]; rewrite H; now destruct err.
Qed.

Lemma build_directory_failure_starts_nothing_witness :
  BuildRun.run Hosts.read_only linux "build" "app" None "Debug" true tt
  = (1%Z, []).
Proof.
  apply (@build_directory_failure_starts_nothing unit Hosts.read_only linux
           "build" "app" None "Debug" true tt tt Py.EOTHER).
  reflexivity.
Defined.

(** ** release.py: the run as a whole *)

(** X13. Without git on the search path the release script ends with exit
    status 1 before it starts any command, whatever the command line. *)
Theorem missing_git_is_fatal
  (W : Type) (os : Py.OS W) (w : W) (args : Release.Namespace) :
  Py.which os "git" w = None ->
  Release.run os args w = (1%Z, []).
Proof.
  intros H. unfold Release.run, Release.script, Py.bind, Py.shutil_which.
  cbn [Py.world]. now rewrite H.
Qed.

Lemma missing_git_is_fatal_witness :
  Release.run Hosts.without_git (Release.create_args "v1.0.0" None true) tt
  = (1%Z, []).
Proof.
  apply (@missing_git_is_fatal unit Hosts.without_git tt
           (Release.create_args "v1.0.0" None true)).
  reflexivity.
Defined.

(** X14. The exit status of the release script is 0 or 1, for every
    command line and every host. *)
Theorem release_exit_status
  (W : Type) (os : Py.OS W) (w : W) (args : Release.Namespace) :
  fst (Release.run os args w) = 0%Z \/ fst (Release.run os args w) = 1%Z.
Proof.
  destruct args as [a tg m p]. unfold_script.
  destruct (a =? "create"); [destruct p|destruct (a =? "delete")].
  all: host_cases; auto.
Qed.

(** X15. Without the push-commits flag a tag creation starts at most two
    commands, the creation of the annotated tag and then the push of the
    tag: the current branch is neither looked up nor pushed. *)
Theorem create_without_push_commits
  (W : Type) (os : Py.OS W) (w : W) (tag : string) (msg : option string) :
  exists n,
    map Py.argv (snd (Release.run os (Release.create_args tag msg false) w))
    = firstn n [Release.tag_cmd tag (Release.effective_message tag msg);
                Release.push_tag_cmd tag].
Proof.
  unfold_script. unfold Release.tag_cmd, Release.push_tag_cmd.
  destruct msg as [m|]; host_cases.
  all: (exists 0%nat; reflexivity) || (exists 1%nat; reflexivity)
       || (exists 2%nat; reflexivity).
Qed.


(** X17. A tag creation stops at the first command that fails, the lookup
    of the branch exiting with a non-zero status apart: such a failed
    command is the last one started and the exit status is 1.  So a failed
    push of the commits leaves the tag uncreated, and a failed creation of
    the tag leaves it unpushed. *)
Theorem create_stops_at_first_failure
  (W : Type) (os : Py.OS W) (w : W) (tag : string) (msg : option string)
  (push : bool) (call : Py.Call) :
  In call (snd (Release.run os (Release.create_args tag msg push) w)) ->
  Py.failed call = true ->
  Release.lookup_exited_nonzero call = false ->
  fst (Release.run os (Release.create_args tag msg push) w) = 1%Z
  /\ exists earlier,
       snd (Release.run os (Release.create_args tag msg push) w)
       = (earlier ++ [call])%list.
Proof.
  unfold_script. destruct push, msg as [m|]; host_cases.
  all: intros Hin Hf Hl; split_calls;
    unfold Py.failed, Py.succeeded, Py.exited_nonzero,
      Release.lookup_exited_nonzero in *; cbn in *;
    repeat match goal with
      | E : (Py.returncode ?cp =? 0)%Z = _,
        H : context [(Py.returncode ?cp =? 0)%Z] |- _ =>
          rewrite E in H; cbn in H
      end;
    try discriminate.
  all: split; [reflexivity | last_call; reflexivity].
Qed.

Lemma create_stops_at_first_failure_witness :
  fst (Release.run (Hosts.failing ["git"; "push"; "origin"; "main"])
                   (Release.create_args "v1.0.0" None true) tt) = 1%Z
  /\ map Py.argv
       (snd (Release.run (Hosts.failing ["git"; "push"; "origin"; "main"])
                         (Release.create_args "v1.0.0" None true) tt))
     = [Release.rev_parse_cmd; ["git"; "push"; "origin"; "main"]].
Proof.
  destruct (@create_stops_at_first_failure unit
              (Hosts.failing ["git"; "push"; "origin"; "main"]) tt
              "v1.0.0" None true
              {| Py.argv := ["git"; "push"; "origin"; "main"]; Py.cwd := None;
                 Py.outcome := inr {| Py.returncode := 128; Py.stdout := Py.Text "main";
                                      Py.stderr := Py.Text "" |} |})
    as [H _]; [right; left; reflexivity | reflexivity | reflexivity |].
  split; [exact H | reflexivity].
Defined.

(** X18. A message that is supplied and not empty is the message of every
    [git tag -a] command of the run, unchanged; an empty message gives the
    same run as no message at all. *)
Theorem create_message_choice
  (W : Type) (os : Py.OS W) (w : W) (tag : string) (push : bool) :
  (forall m call,
     m <> "" ->
     In call (snd (Release.run os (Release.create_args tag (Some m) push) w)) ->
     Release.is_tag_cmd (Py.argv call) = true ->
     Py.argv call = Release.tag_cmd tag m)
  /\ Release.run os (Release.create_args tag (Some "") push) w
     = Release.run os (Release.create_args tag None push) w.
Proof.
  split; [|reflexivity].
  intros m call Hm.
  assert (Hmsg : PyStr.truthy m = true)
    by (unfold PyStr.truthy; apply String.eqb_neq in Hm; now rewrite Hm).
  unfold_script. rewrite Hmsg.
  destruct push; host_cases.
  all: intros Hin Htag; split_calls; cbn in *; try discriminate; reflexivity.
Qed.

Lemma create_message_choice_witness :
  map Py.argv
    (snd (Release.run (Hosts.all_ok [])
            (Release.create_args "v2.5.3" (Some "Second beta") false) tt))
  = [Release.tag_cmd "v2.5.3" "Second beta"; Release.push_tag_cmd "v2.5.3"]
  /\ Py.argv
       {| Py.argv := Release.tag_cmd "v2.5.3" "Second beta"; Py.cwd := None;
          Py.outcome := inr {| Py.returncode := 0; Py.stdout := Py.Text "main";
                               Py.stderr := Py.Text "" |} |}
     = Release.tag_cmd "v2.5.3" "Second beta".
Proof.
  split; [reflexivity|].
  destruct (@create_message_choice unit (Hosts.all_ok []) tt "v2.5.3" false)
    as [H _].
  apply (H "Second beta"); [discriminate | left; reflexivity | reflexivity].
Defined.

(** ** release.py: the lookup of the current branch *)

Section StripFacts.
Local Open Scope list_scope.

Lemma lstrip_list_head (l : list ascii) (x : ascii) (r : list ascii) :
  Strip.lstrip_list l = x :: r -> Strip.is_space x = false.
Proof.
  induction l as [|y l IH]; cbn [Strip.lstrip_list]; [discriminate|].
  destruct (Strip.is_space y) eqn:E; [exact IH|].
  intros H. injection H as -> _. exact E.
Qed.

Lemma lstrip_list_suffix (l : list ascii) :
  exists sp, l = sp ++ Strip.lstrip_list l.
Proof.
  induction l as [|y l [sp IH]]; [now exists []|].
  cbn [Strip.lstrip_list]. destruct (Strip.is_space y).
  - exists (y :: sp). cbn [app]. now rewrite <- IH.
  - now exists [].
Qed.

Lemma strip_list (s : string) :
  list_ascii_of_string (Strip.strip s)
  = rev (Strip.lstrip_list (rev (Strip.lstrip_list (list_ascii_of_string s)))).
Proof. unfold Strip.strip. apply list_ascii_of_string_of_list_ascii. Qed.

Lemma strip_no_leading_space (s : string) (ch : ascii) (rest : string) :
  Strip.strip s = String ch rest -> Strip.is_space ch = false.
Proof.
  intros H. apply (f_equal list_ascii_of_string) in H.
  rewrite strip_list in H. cbn [list_ascii_of_string] in H.
  destruct (lstrip_list_suffix
              (rev (Strip.lstrip_list (list_ascii_of_string s)))) as [sp E].
  apply (f_equal (@rev ascii)) in E.
  rewrite rev_involutive, rev_app_distr, H in E. cbn [app] in E.
  exact (lstrip_list_head _ E).
Qed.

Lemma strip_no_trailing_space (s : string) (pre : string) (ch : ascii) :
  Strip.strip s = (pre ++ String ch EmptyString)%string ->
  Strip.is_space ch = false.
Proof.
  intros H. apply (f_equal list_ascii_of_string) in H.
  rewrite strip_list, list_of_append in H. cbn [list_ascii_of_string] in H.
  apply (f_equal (@rev ascii)) in H.
  rewrite rev_involutive, rev_app_distr in H. cbn [rev app] in H.
  exact (lstrip_list_head _ H).
Qed.

End StripFacts.

(** X19. When the lookup of the current branch returns a name, exactly one
    command was started, [git rev-parse --abbrev-ref HEAD], it exited with
    status 0, and the name is its output without white space in front or
    at the end. *)
Theorem current_branch_is_stripped
  (W : Type) (os : Py.OS W) (st st' : Py.State W) (branch : string) :
  Release.get_current_branch os st = (Py.Ret (Some branch), st') ->
  (exists cp out,
      Py.calls st'
      = (Py.calls st ++ [{| Py.argv := Release.rev_parse_cmd; Py.cwd := None;
                            Py.outcome := inr cp |}])%list
      /\ Py.returncode cp = 0%Z
      /\ Py.stdout cp = Py.Text out
      /\ branch = Strip.strip out)
  /\ (forall ch rest, branch = String ch rest -> Strip.is_space ch = false)
  /\ (forall pre ch, branch = pre ++ String ch EmptyString ->
                     Strip.is_space ch = false).
Proof.
  unfold Release.get_current_branch, Py.try_except, Py.bind,
    Py.subprocess_run_text, Py.ret.
  fold Release.rev_parse_cmd.
  destruct (Py.spawn os Release.rev_parse_cmd None (Py.world st))
    as [[e|cp] w'] eqn:E.
  - destruct e; discriminate.
  - destruct (Py.stdout cp) as [out|] eqn:Eo; [|discriminate].
    destruct (Py.stderr cp) as [err|]; [|discriminate].
    destruct (Py.returncode cp =? 0)%Z eqn:R; [|discriminate].
    cbn [Py.stdout].
    intros H. injection H as <- <-. split; [|split].
    + exists cp, out. repeat split; [now apply Z.eqb_eq | exact Eo].
    + intros ch rest Hb. exact (@strip_no_leading_space _ _ _ Hb).
    + intros pre ch Hb. exact (@strip_no_trailing_space _ _ _ Hb).
Qed.

Lemma current_branch_is_stripped_witness :
  fst (Release.get_current_branch Hosts.padded_output
         {| Py.world := tt; Py.calls := [] |}) = Py.Ret (Some "main")
  /\ (forall ch rest, "main" = String ch rest -> Strip.is_space ch = false).
Proof.
  split; [reflexivity|].
  destruct (@current_branch_is_stripped unit Hosts.padded_output
              {| Py.world := tt; Py.calls := [] |}
              (snd (Release.get_current_branch Hosts.padded_output
                      {| Py.world := tt; Py.calls := [] |}))
              "main") as [_ [H _]]; [reflexivity | exact H].
Defined.



(** ** More on the paths of a POSIX host *)

Lemma join_step_ends_with (path t : string) :
  PyStr.endswith (PosixPath.join_step path t) t = true.
Proof.
  unfold PosixPath.join_step.
  destruct (PyStr.startswith t PosixPath.sep).
  - apply (endswith_append "" t).
  - destruct (negb (PyStr.truthy path) || PyStr.endswith path PosixPath.sep).
    + apply endswith_append.
    + rewrite <- append_assoc. apply endswith_append.
Qed.

(** X21. On a POSIX host every path returned ends with the target name,
    whatever the build directory, the target name and the configuration
    are. *)
Theorem posix_paths_end_with_target (name b t c p : string) :
  name <> "win32" ->
  In p (get_executable_paths (posix_host name) b t c) ->
  PyStr.endswith p t = true.
Proof.
  intros Hn. unfold get_executable_paths, platform_suffix, paths_before_suffix.
  cbn [posix_host sys_platform]. apply String.eqb_neq in Hn. rewrite Hn.
  rewrite In_dedup. unfold candidate_paths.
  cbn [posix_host os_path_join map common_configs app In].
  intros H.
  repeat (destruct H as [<-|H]; [apply join_step_ends_with|]).
  contradiction.
Qed.

Lemma posix_paths_end_with_target_witness :
  PyStr.endswith "build/RelWithDebInfo/dircat_test" "dircat_test" = true.
Proof.
  apply (@posix_paths_end_with_target "linux" "build" "dircat_test" "Debug"
           "build/RelWithDebInfo/dircat_test");
    [discriminate|].
  vm_compute. auto 10.
Defined.

Lemma join_step_trailing_sep (b x : string) :
  b <> "" -> PyStr.endswith b PosixPath.sep = false ->
  PosixPath.join_step (b ++ PosixPath.sep) x = PosixPath.join_step b x.
Proof.
  intros Hb He. unfold PosixPath.join_step.
  destruct (PyStr.startswith x PosixPath.sep); [reflexivity|].
  rewrite endswith_append, orb_true_r.
  unfold PyStr.truthy. apply String.eqb_neq in Hb. rewrite Hb, He.
  cbn [negb orb]. apply append_assoc.
Qed.

(** X22. On a POSIX host a separator at the end of the build directory
    makes no difference: "build/" and "build" give the same paths. *)
Theorem trailing_separator_is_ignored (name b t c : string) :
  b <> "" -> PyStr.endswith b PosixPath.sep = false ->
  get_executable_paths (posix_host name) (b ++ PosixPath.sep) t c
  = get_executable_paths (posix_host name) b t c.
Proof.
  intros Hb He.
  unfold get_executable_paths, paths_before_suffix, candidate_paths.
  cbn [posix_host os_path_join map common_configs app].
  unfold PosixPath.join. cbn [fold_left].
  now rewrite !(join_step_trailing_sep _ Hb He).
Qed.

Lemma trailing_separator_is_ignored_witness :
  get_executable_paths linux "out/build/" "app" "Release"
  = get_executable_paths linux "out/build" "app" "Release".
Proof.
  apply (@trailing_separator_is_ignored "linux" "out/build" "app" "Release");
    [discriminate | reflexivity].
Defined.
